(** * Citation metrics of the elephant repository

    A shallow embedding of [src/analytics/metrics.py] (class
    [MetricsCalculator]) and the properties its specification states.

    Python values are modelled as follows.
    - [int] is [Z] (unbounded).
    - a [float] is the rational [Q] it stands for: the potential score
      is built from halves and small integers, which floats hold exactly;
      the average is the double nearest to the quotient of two integers.
    - [str] is [string]; [str.lower] is its ASCII restriction.
    - a dictionary entry that may be missing or hold [None] is a [field].
    - an operation that may raise returns a [result].
    - [datetime.now()] is an argument of the operation that reads it. *)

From Stdlib Require Import ZArith QArith Qabs Lia Lqa Ascii String.
From stdpp Require Import base list sorting gmap strings.

Local Open Scope Z_scope.

(** ** Exceptions and results *)

Inductive exn : Type :=
  | KeyError (key : string)
  | AttributeError (attr : string)
  | ZeroDivisionError
  | OverflowError
  | PaperNotFound (identifier : string).

Inductive result (A : Type) : Type :=
  | Ok (a : A)
  | Raise (e : exn).
Arguments Ok {A} a.
Arguments Raise {A} e.

Definition bind {A B} (m : result A) (k : A → result B) : result B :=
  match m with
  | Ok a => k a
  | Raise e => Raise e
  end.

Notation "'let*' x ':=' m 'in' k" := (bind m (λ x, k))
  (at level 10, x name, m at level 100, k at level 200).

(** A list comprehension whose body may raise: the first failure, in
    iteration order, aborts the comprehension. *)
Fixpoint comprehension {A B} (f : A → result B) (l : list A) : result (list B) :=
  match l with
  | [] => Ok []
  | x :: l' =>
      let* y := f x in
      let* ys := comprehension f l' in
      Ok (y :: ys)
  end.

(** ** Python built-ins used by the metrics code *)

Section PySorted.
Context {A K : Type}.
Variable leb : K → K → bool.
Variable key : A → K.

(** [insert_rev x l] puts [x] in front of the first element whose key is
    not greater than the key of [x]. *)
Fixpoint insert_rev (x : A) (l : list A) : list A :=
  match l with
  | [] => [x]
  | y :: l' => if leb (key y) (key x) then x :: y :: l' else y :: insert_rev x l'
  end.

(** [sorted(l, key=key, reverse=True)]: descending by key, elements with
    equal keys keep their order (Python's sort is stable, also under
    [reverse=True]). *)
Definition py_sorted_rev (l : list A) : list A := foldr insert_rev [] l.

(** [x] may stand before [y] in a list that is descending by key. *)
Definition desc (x y : A) : Prop := leb (key y) (key x) = true.

(** The key of [x] is equivalent to [k] in the order [leb]. *)
Definition same_key (k : K) (x : A) : bool := leb k (key x) && leb (key x) k.
End PySorted.

(** [sum(...)] over integers. *)
Definition py_sum (l : list Z) : Z := foldl Z.add 0 l.

(** [len(...)]. *)
Definition len {A} (l : list A) : Z := Z.of_nat (length l).

(** [l[:limit]]: a negative bound counts from the end of the list. *)
Definition slice_to {A} (limit : Z) (l : list A) : list A :=
  if 0 <=? limit then take (Z.to_nat limit) l
  else take (length l - Z.to_nat (- limit))%nat l.

(** [n / d] rounded to the nearest integer, ties to the even one
    ([d] positive). *)
Definition round_half_even (n d : Z) : Z :=
  let q := n / d in
  let r := n mod d in
  if 2 * r <? d then q
  else if d <? 2 * r then q + 1
  else if Z.even q then q else q + 1.

(** [2 ^ e <= n / d], for positive [n] and [d] and any integer [e]. *)
Definition reaches_pow2 (n d e : Z) : bool :=
  d * 2 ^ Z.max 0 e <=? n * 2 ^ Z.max 0 (- e).

(** The [e] with [2 ^ e <= n / d < 2 ^ (e + 1)], for positive [n], [d]. *)
Definition binary_exponent (n d : Z) : Z :=
  let e0 := Z.log2 n - Z.log2 d in
  if reaches_pow2 n d e0 then e0 else e0 - 1.

(** The double nearest to [a / b] (round to nearest, ties to even, 53
    bits, exponents down to [-1074]), [None] when it is beyond the range
    of doubles ([b] is not 0). *)
Definition nearest_double (a b : Z) : option Q :=
  if a =? 0 then Some 0%Q
  else
    let n := Z.abs a in
    let d := Z.abs b in
    let p := Z.max (binary_exponent n d - 52) (- 1074) in
    let m := round_half_even (n * 2 ^ Z.max 0 (- p)) (d * 2 ^ Z.max 0 p) in
    if 2 ^ 1024 <=? m * 2 ^ Z.max 0 p then None
    else Some (Qmake (Z.sgn a * Z.sgn b * m * 2 ^ Z.max 0 p)
                     (Z.to_pos (2 ^ Z.max 0 (- p)))).

(** [a / b] on integers (true division): the correctly rounded double,
    an overflow error when the quotient is too large for one. *)
Definition py_truediv (a b : Z) : result Q :=
  if b =? 0 then Raise ZeroDivisionError
  else
    match nearest_double a b with
    | Some x => Ok x
    | None => Raise OverflowError
    end.

(** ** Data model *)

(** The value stored under an optional dictionary key. *)
Inductive field (A : Type) : Type :=
  | Absent
  | Null
  | Val (a : A).
Arguments Absent {A}.
Arguments Null {A}.
Arguments Val {A} a.

#[global] Instance field_eq_dec {A} `{EqDecision A} : EqDecision (field A).
Proof. solve_decision. Defined.

(** [d.get(k)]: [None] for a missing key. *)
Definition get {A} (f : field A) : option A :=
  match f with
  | Val a => Some a
  | _ => None
  end.

(** One entry of [db.get_papers_with_latest_citations()].  The keys
    [title] and [citations] are read with [p[...]] everywhere and hold a
    string and an integer. *)
Record Paper : Type := mkPaper {
  title : string;
  citations : Z;
  year : field Z;
  doi : field string;
  venue : field string
}.

(** Rows of the storage collaborator, as the SQL statements of
    [get_paper_stats] see them.  A column holding NULL is [None].
    A [datetime] is a count of microseconds. *)
Record PaperRow : Type := mkPaperRow {
  row_id : Z;
  row_title : string;
  row_doi : option string;
  row_arxiv_id : option string;
  row_year : option Z;
  row_venue : option string
}.

Record CitationRow : Type := mkCitationRow {
  cit_paper_id : Z;
  cit_platform : string;
  cit_citation_count : Z;
  cit_timestamp : Z
}.

(** One entry of [db.get_citation_history(paper_id, days)], its
    timestamp already parsed by [datetime.fromisoformat]. *)
Record HistoryRecord : Type := mkHistoryRecord {
  timestamp : Z;
  citation_count : Z
}.

(** The [Database] collaborator: the two tables that [get_paper_stats]
    queries through [db.conn], and the two methods the calculator calls,
    whose bodies are outside this component. *)
Record Database : Type := mkDatabase {
  papers_table : list PaperRow;
  citations_table : list CitationRow;
  get_papers_with_latest_citations : list Paper;
  get_citation_history : Z → Z → list HistoryRecord
}.

(** ** Strings *)

Definition lower_ascii (c : ascii) : ascii :=
  let n := N_of_ascii c in
  if ((65 <=? n) && (n <=? 90))%N then ascii_of_N (n + 32) else c.

Fixpoint lower (s : string) : string :=
  match s with
  | EmptyString => EmptyString
  | String c s' => String (lower_ascii c) (lower s')
  end.

(** [term in s] on strings. *)
Fixpoint contains (term s : string) : bool :=
  String.prefix term s ||
  match s with
  | EmptyString => false
  | String _ s' => contains term s'
  end.

(** [any(term in s for term in terms)]. *)
Definition any_in (terms : list string) (s : string) : bool :=
  existsb (λ term, contains term s) terms.

(** ** Results of the operations *)

Record SummaryStats : Type := mkSummaryStats {
  total_papers : Z;
  total_citations : Z;
  h_index : Z;
  avg_citations : Q;
  papers_change : Z;
  citations_change : Z;
  h_index_change : Z
}.

Record TopPaper : Type := mkTopPaper {
  top_title : string;
  top_citations : Z;
  top_year : option Z;
  top_doi : option string;
  top_venue : option string
}.

Record PaperStats : Type := mkPaperStats {
  stats_title : string;
  stats_doi : option string;
  stats_arxiv_id : option string;
  stats_year : option Z;
  stats_venue : option string;
  stats_citations : Z;
  citations_7d : Z;
  citations_30d : Z;
  citations_1y : Z
}.

Record YearBucket : Type := mkYearBucket {
  bucket_papers : Z;
  bucket_citations : Z
}.

Record Trends : Type := mkTrends {
  by_year : gmap Z YearBucket;
  trends_total_papers : Z;
  trends_total_citations : Z
}.

Record LowVisibility : Type := mkLowVisibility {
  lv_title : string;
  lv_year : Z;
  lv_citations : Z;
  lv_age : Z;
  lv_doi : option string;
  potential : Q
}.

(** ** The calculator *)

Module MetricsCalculator.

(** The loop of [calculate_h_index]: [i] is the rank given by
    [enumerate(..., 1)], [h] the current [h_index]; the [else] branch
    is the [break]. *)
Fixpoint h_index_loop (i h : Z) (l : list Z) : Z :=
  match l with
  | [] => h
  | c :: l' => if i <=? c then h_index_loop (i + 1) i l' else h
  end.

Definition calculate_h_index (citation_counts : list Z) : Z :=
  match citation_counts with
  | [] => 0
  | _ =>
      let sorted_citations := py_sorted_rev Z.leb id citation_counts in
      h_index_loop 1 0 sorted_citations
  end.

Definition get_summary_stats (db : Database) (period : string) : result SummaryStats :=
  let papers := get_papers_with_latest_citations db in
  let total_papers := len papers in
  let total_citations := py_sum (citations <$> papers) in
  let citation_counts := citations <$> papers in
  let h_index := calculate_h_index citation_counts in
  let* avg_citations :=
    if 0 <? total_papers then py_truediv total_citations total_papers
    else Ok 0%Q in
  Ok {| total_papers := total_papers;
        total_citations := total_citations;
        h_index := h_index;
        avg_citations := avg_citations;
        papers_change := 0;
        citations_change := 0;
        h_index_change := 0 |}.

(** The dictionary built for one paper by [get_top_papers]; [p['year']]
    raises when the key is missing. *)
Definition top_entry (p : Paper) : result TopPaper :=
  let* y :=
    match year p with
    | Absent => Raise (KeyError "year")
    | Null => Ok None
    | Val y => Ok (Some y)
    end in
  Ok {| top_title := title p;
        top_citations := citations p;
        top_year := y;
        top_doi := get (doi p);
        top_venue := get (venue p) |}.

Definition get_top_papers (db : Database) (limit : Z) : result (list TopPaper) :=
  let papers := get_papers_with_latest_citations db in
  let top_papers := slice_to limit (py_sorted_rev Z.leb citations papers) in
  comprehension top_entry top_papers.

(** [WHERE doi = ? OR arxiv_id = ?]: a NULL column matches nothing. *)
Definition row_matches (identifier : string) (row : PaperRow) : bool :=
  bool_decide (row_doi row = Some identifier)
  || bool_decide (row_arxiv_id row = Some identifier).

(** [cursor.fetchone()]: the first row of the cursor.  The rows of a
    table are taken in the order of the list; the query has no ORDER BY,
    so which of several matching rows comes first is the choice of the
    database. *)
Definition fetchone {A} (rows : list A) : option A := head rows.

(** [SELECT MAX(c) ...]: NULL over no rows. *)
Definition sql_max (l : list Z) : option Z :=
  match l with
  | [] => None
  | x :: l' => Some (foldl Z.max x l')
  end.

(** [(now - record_date).days]: whole days, rounded down. *)
Definition days_between (now record_date : Z) : Z :=
  (now - record_date) / 86400000000.

(** One iteration of the loop over the citation history; the state is
    [(citations_7d, citations_30d, citations_1y)]. *)
Definition history_step (now : Z) (acc : Z * Z * Z) (record : HistoryRecord)
    : Z * Z * Z :=
  let '(c7d, c30d, c1y) := acc in
  let days_ago := days_between now (timestamp record) in
  let c7d := if days_ago <=? 7 then Z.max c7d (citation_count record) else c7d in
  let c30d := if days_ago <=? 30 then Z.max c30d (citation_count record) else c30d in
  let c1y := if days_ago <=? 365 then Z.max c1y (citation_count record) else c1y in
  (c7d, c30d, c1y).

Definition get_paper_stats (db : Database) (identifier : string) (now : Z)
    : result PaperStats :=
  let cursor := List.filter (row_matches identifier) (papers_table db) in
  match fetchone cursor with
  | None => Raise (PaperNotFound identifier)
  | Some paper =>
      let paper_id := row_id paper in
      let history := get_citation_history db paper_id 365 in
      let '(c7d, c30d, c1y) := foldl (history_step now) (0, 0, 0) history in
      let latest :=
        sql_max (cit_citation_count <$>
                 List.filter (λ c, cit_paper_id c =? paper_id) (citations_table db)) in
      let current_citations :=
        match latest with
        | Some c => if c =? 0 then 0 else c
        | None => 0
        end in
      Ok {| stats_title := row_title paper;
            stats_doi := row_doi paper;
            stats_arxiv_id := row_arxiv_id paper;
            stats_year := row_year paper;
            stats_venue := row_venue paper;
            stats_citations := current_citations;
            citations_7d := if c7d =? 0 then 0 else current_citations - c7d;
            citations_30d := if c30d =? 0 then 0 else current_citations - c30d;
            citations_1y := if c1y =? 0 then 0 else current_citations - c1y |}
  end.

(** [if year:] for [year = paper.get('year')]: neither missing, nor
    [None], nor 0. *)
Definition truthy_year (p : Paper) : option Z :=
  match get (year p) with
  | Some y => if y =? 0 then None else Some y
  | None => None
  end.

(** One iteration of the grouping loop of [get_citation_trends]. *)
Definition trends_step (by_year : gmap Z YearBucket) (paper : Paper)
    : gmap Z YearBucket :=
  match truthy_year paper with
  | Some y =>
      let by_year :=
        match by_year !! y with
        | None => <[y := {| bucket_papers := 0; bucket_citations := 0 |}]> by_year
        | Some _ => by_year
        end in
      let by_year :=
        alter (λ b, {| bucket_papers := bucket_papers b + 1;
                       bucket_citations := bucket_citations b |}) y by_year in
      alter (λ b, {| bucket_papers := bucket_papers b;
                     bucket_citations := bucket_citations b + citations paper |})
            y by_year
  | None => by_year
  end.

Definition get_citation_trends (db : Database) : Trends :=
  let papers := get_papers_with_latest_citations db in
  {| by_year := foldl trends_step ∅ papers;
     trends_total_papers := len papers;
     trends_total_citations := py_sum (citations <$> papers) |}.

Definition _estimate_potential (now_year : Z) (paper : Paper) : result Q :=
  let score := 0%Q in
  let* venue :=
    match venue paper with
    | Absent => Ok ""%string
    | Null => Raise (AttributeError "lower")
    | Val v => Ok v
    end in
  let venue := lower venue in
  let score :=
    if any_in ["nature"; "science"; "cell"; "lancet"; "pnas"]%string venue
    then (score + 10)%Q
    else if any_in ["ieee"; "acm"; "springer"]%string venue
    then (score + 5)%Q
    else score in
  let score :=
    match truthy_year paper with
    | Some y =>
        let age := now_year - y in
        if age <? 3 then (score + inject_Z (3 - age) * 2)%Q else score
    | None => score
    end in
  let citations := citations paper in
  let score :=
    if 0 <? citations then (score + inject_Z (Z.min citations 10) * (1 # 2))%Q
    else score in
  Ok score.

(** The loop of [identify_low_visibility_papers]; [low_visibility] is
    the list appended to. *)
Fixpoint low_visibility_loop (threshold now_year : Z) (papers : list Paper)
    (low_visibility : list LowVisibility) : result (list LowVisibility) :=
  match papers with
  | [] => Ok low_visibility
  | paper :: papers' =>
      match truthy_year paper with
      | Some y =>
          let age := now_year - y in
          if (1 <=? age) && (citations paper <? threshold) then
            let* p := _estimate_potential now_year paper in
            low_visibility_loop threshold now_year papers'
              (low_visibility ++
               [ {| lv_title := title paper;
                    lv_year := y;
                    lv_citations := citations paper;
                    lv_age := age;
                    lv_doi := get (doi paper);
                    potential := p |} ])
          else low_visibility_loop threshold now_year papers' low_visibility
      | None => low_visibility_loop threshold now_year papers' low_visibility
      end
  end.

Definition identify_low_visibility_papers (db : Database) (threshold now_year : Z)
    : result (list LowVisibility) :=
  let papers := get_papers_with_latest_citations db in
  let* low_visibility := low_visibility_loop threshold now_year papers [] in
  Ok (py_sorted_rev Qle_bool potential low_visibility).

End MetricsCalculator.
Import MetricsCalculator.

(** ** Notions used to state the properties *)

(** The largest citation count among the history records at most
    [horizon] days old, 0 when there is none (or none is positive). *)
Definition horizon_max (now horizon : Z) (history : list HistoryRecord) : Z :=
  foldr Z.max 0
    (citation_count <$>
     List.filter (λ r, days_between now (timestamp r) <=? horizon) history).


(** Growth as [get_paper_stats] reports it: 0 when the maximum of the
    horizon is 0, the plain difference otherwise. *)
Definition guarded_growth (current horizon_maximum : Z) : Z :=
  if horizon_maximum =? 0 then 0 else current - horizon_maximum.

(** The papers of a list published in year [y]. *)
Definition published_in (y : Z) (papers : list Paper) : list Paper :=
  List.filter (λ p, bool_decide (year p = Val y)) papers.

(** The year of a paper is missing, [None] or 0. *)
Definition no_year (p : Paper) : bool :=
  match year p with
  | Absent | Null => true
  | Val y => y =? 0
  end.

(** The papers of a list without a year. *)
Definition undated (papers : list Paper) : list Paper := List.filter no_year papers.

(** The sums of the [papers] and of the [citations] fields over all
    buckets. *)
Definition bucket_papers_sum (m : gmap Z YearBucket) : Z :=
  map_fold (λ _ b acc, bucket_papers b + acc) 0 m.

Definition bucket_citations_sum (m : gmap Z YearBucket) : Z :=
  map_fold (λ _ b acc, bucket_citations b + acc) 0 m.

(** A bucket once one more paper with [c] citations is
    counted in it. *)
Definition count_in (b : option YearBucket) (c : Z) : YearBucket :=
  {| bucket_papers := bucket_papers (default (mkYearBucket 0 0) b) + 1;
     bucket_citations := bucket_citations (default (mkYearBucket 0 0) b) + c |}.

(** The entry [e] was built from a paper of the list that has a year, is
    at least one year old in calendar years and has fewer citations than
    the threshold. *)
Definition flagged_from (threshold now_year : Z) (papers : list Paper)
    (e : LowVisibility) : Prop :=
  ∃ p, p ∈ papers
    ∧ year p = Val (lv_year e)
    ∧ lv_title e = title p
    ∧ lv_citations e = citations p
    ∧ lv_doi e = get (doi p)
    ∧ lv_age e = now_year - lv_year e
    ∧ 1 ≤ lv_age e
    ∧ citations p < threshold
    ∧ _estimate_potential now_year p = Ok (potential e).

(** The rows of the citation history are rows of the citations table for
    the paper. *)
Definition history_from_table (db : Database) (paper_id : Z) : Prop :=
  ∀ r, r ∈ get_citation_history db paper_id 365 →
    ∃ c, c ∈ citations_table db
      ∧ cit_paper_id c = paper_id
      ∧ cit_citation_count c = citation_count r.

(** ** Example data *)

Definition day : Z := 86400000000.

(** A paper with a count of 5 reported twenty days ago by one platform
    and a count of 0 reported three days ago by another. *)
Definition db_two_platforms : Database :=
  {| papers_table :=
       [ {| row_id := 1; row_title := "T"; row_doi := Some "10.1000/x";
            row_arxiv_id := None; row_year := Some 2020; row_venue := None |} ];
     citations_table :=
       [ {| cit_paper_id := 1; cit_platform := "semantic_scholar";
            cit_citation_count := 5; cit_timestamp := 0 |};
         {| cit_paper_id := 1; cit_platform := "google_scholar";
            cit_citation_count := 0; cit_timestamp := 17 * day |} ];
     get_papers_with_latest_citations :=
       [ {| title := "T"; citations := 5; year := Val 2020;
            doi := Val "10.1000/x"; venue := Null |} ];
     get_citation_history := λ paper_id days,
       if paper_id =? 1 then
         [ {| timestamp := 0; citation_count := 5 |};
           {| timestamp := 17 * day; citation_count := 0 |} ]
       else [] |}.


(** A database whose method [get_papers_with_latest_citations] returns
    the given list. *)
Definition db_of_papers (papers : list Paper) : Database :=
  {| papers_table := []; citations_table := [];
     get_papers_with_latest_citations := papers;
     get_citation_history := λ _ _, [] |}.

Definition paper_2020_5 : Paper :=
  {| title := "A"; citations := 5; year := Val 2020; doi := Null; venue := Absent |}.
Definition paper_2020_3 : Paper :=
  {| title := "B"; citations := 3; year := Val 2020; doi := Null; venue := Absent |}.
Definition paper_2021_1 : Paper :=
  {| title := "C"; citations := 1; year := Val 2021; doi := Null; venue := Absent |}.

(** A paper as stored for an arXiv preprint: no venue, no DOI. *)
Definition paper_null_venue : Paper :=
  {| title := "P"; citations := 1; year := Val 2020; doi := Null; venue := Null |}.

(** A paper without year holding a negative count. *)
Definition paper_undated_negative : Paper :=
  {| title := "N"; citations := -1; year := Null; doi := Null; venue := Null |}.

(** ** Notions used to state further properties *)

(** The number of counts that are at least [k]. *)
Definition count_ge (k : Z) (counts : list Z) : Z :=
  len (filter (λ c, k ≤ c) counts).

(** A paper whose count went from 8, ten days ago, down to 5, two days
    ago. *)
Definition db_corrected_count : Database :=
  {| papers_table :=
       [ {| row_id := 7; row_title := "D"; row_doi := None;
            row_arxiv_id := Some "2101.00001"; row_year := Some 2021;
            row_venue := None |} ];
     citations_table :=
       [ {| cit_paper_id := 7; cit_platform := "semantic_scholar";
            cit_citation_count := 8; cit_timestamp := 10 * day |};
         {| cit_paper_id := 7; cit_platform := "semantic_scholar";
            cit_citation_count := 5; cit_timestamp := 18 * day |} ];
     get_papers_with_latest_citations :=
       [ {| title := "D"; citations := 8; year := Val 2021;
            doi := Null; venue := Null |} ];
     get_citation_history := λ paper_id days,
       if paper_id =? 7 then
         [ {| timestamp := 10 * day; citation_count := 8 |};
           {| timestamp := 18 * day; citation_count := 5 |} ]
       else [] |}.

(** The test of [identify_low_visibility_papers]: the paper has a year
    other than 0, is at least one calendar year old and has fewer
    citations than the threshold. *)
Definition low_visibility (threshold now_year : Z) (p : Paper) : bool :=
  match year p with
  | Val y => negb (y =? 0) && (1 <=? now_year - y) && (citations p <? threshold)
  | _ => false
  end.

(** The entry appended for a paper that passes the test. *)
Definition low_visibility_entry (now_year : Z) (p : Paper) : result LowVisibility :=
  let y := default 0 (get (year p)) in
  let* score := _estimate_potential now_year p in
  Ok {| lv_title := title p;
        lv_year := y;
        lv_citations := citations p;
        lv_age := now_year - y;
        lv_doi := get (doi p);
        potential := score |}.

(** * The API layer

    The clients of [src/api] talk to services over the network.  What a
    service answers is an argument of the operation that asks; a JSON
    object is a record whose keys are [field]s, so that a missing key and
    a [null] stay apart. *)

(** An exception of the API layer: its class and the text [str(e)]. *)
Inductive py_error : Type := PyError (kind message : string).

Definition str (e : py_error) : string :=
  match e with PyError _ message => message end.

Inductive outcome (A : Type) : Type :=
  | Returns (a : A)
  | Raises (e : py_error).
Arguments Returns {A} a.
Arguments Raises {A} e.

(** A list comprehension whose body may raise. *)
Fixpoint collect {A B} (f : A → outcome B) (l : list A) : outcome (list B) :=
  match l with
  | [] => Returns []
  | x :: l' =>
      match f x with
      | Raises e => Raises e
      | Returns y =>
          match collect f l' with
          | Raises e => Raises e
          | Returns ys => Returns (y :: ys)
          end
      end
  end.

(** [d.get(k, default)]: the default stands in for a missing key only. *)
Definition get_or {A} (default : A) (f : field A) : option A :=
  match f with
  | Absent => Some default
  | Null => None
  | Val a => Some a
  end.

(** [a or b] on optional strings: [a] when it is a non-empty string. *)
Definition str_or (a b : option string) : option string :=
  match a with
  | Some (String _ _) => a
  | _ => b
  end.

(** [not s] on an optional string. *)
Definition str_falsy (s : option string) : bool :=
  match s with
  | Some (String _ _) => false
  | _ => true
  end.

(** ** Semantic Scholar client *)

Module SemanticScholarClient.

(** The JSON of one paper as the service sends it. *)
Record ExternalIds : Type := mkExternalIds {
  ext_DOI : field string;
  ext_ArXiv : field string
}.

Record RawAuthor : Type := mkRawAuthor {
  author_name : field string
}.

Record RawPaper : Type := mkRawPaper {
  raw_title : field string;
  raw_paperId : field string;
  raw_externalIds : field ExternalIds;
  raw_year : field Z;
  raw_venue : field string;
  raw_citationCount : field Z;
  raw_referenceCount : field Z;
  raw_abstract : field string;
  raw_url : field string;
  raw_publicationDate : field string;
  raw_authors : field (list RawAuthor)
}.

(** The dictionary built for one paper. *)
Record PaperData : Type := mkPaperData {
  pd_title : option string;
  pd_paper_id : option string;
  pd_doi : option string;
  pd_arxiv_id : option string;
  pd_year : option Z;
  pd_venue : option string;
  pd_citations : option Z;
  pd_references : option Z;
  pd_abstract : option string;
  pd_url : option string;
  pd_publication_date : option string;
  pd_authors : list (option string)
}.

(** An HTTP response: its status and what [response.json()] gives, of
    which only the key [data] is read. *)
Record Response : Type := mkResponse {
  status_code : Z;
  json_data : outcome (field (list RawPaper))
}.

(** [a['name']]. *)
Definition author_entry (a : RawAuthor) : outcome (option string) :=
  match author_name a with
  | Absent => Raises (PyError "KeyError" "'name'")
  | Null => Returns None
  | Val n => Returns (Some n)
  end.

(** The body of the loop over a batch: the dictionary [paper_data]. *)
Definition paper_data (paper : RawPaper) : outcome PaperData :=
  let external_ids := get_or (mkExternalIds Absent Absent) (raw_externalIds paper) in
  match external_ids with
  | None =>
      Raises (PyError "AttributeError" "'NoneType' object has no attribute 'get'")
  | Some external_ids =>
      match get_or [] (raw_authors paper) with
      | None => Raises (PyError "TypeError" "'NoneType' object is not iterable")
      | Some authors =>
          match collect author_entry authors with
          | Raises e => Raises e
          | Returns names =>
              Returns {| pd_title := get (raw_title paper);
                         pd_paper_id := get (raw_paperId paper);
                         pd_doi := get (ext_DOI external_ids);
                         pd_arxiv_id := get (ext_ArXiv external_ids);
                         pd_year := get (raw_year paper);
                         pd_venue := get (raw_venue paper);
                         pd_citations := get_or 0 (raw_citationCount paper);
                         pd_references := get_or 0 (raw_referenceCount paper);
                         pd_abstract := get (raw_abstract paper);
                         pd_url := get (raw_url paper);
                         pd_publication_date := get (raw_publicationDate paper);
                         pd_authors := names |}
          end
      end
  end.

Section Session.
(** [session.get(url, params)]: the answer to the [n]-th request of the
    call, for the author, the [limit] and the [offset] sent. *)
Variable session_get : nat → string → Z → Z → outcome Response.

(** The [while True] loop of [get_author_papers].  Every iteration sends
    one request; [fuel] bounds the number of requests, [None] means that
    the bound was reached before the loop ended. *)
Fixpoint author_papers_loop (fuel n : nat) (aid : string) (limit offset : Z)
    (papers : list PaperData) : option (outcome (list PaperData)) :=
  match fuel with
  | O => None
  | S fuel' =>
      match session_get n aid limit offset with
      | Raises e => Some (Raises e)
      | Returns response =>
          if status_code response =? 429 then
            author_papers_loop fuel' (S n) aid limit offset papers
          else if negb (status_code response =? 200) then Some (Returns papers)
          else
            match json_data response with
            | Raises e => Some (Raises e)
            | Returns data =>
                match get_or [] data with
                | None | Some [] => Some (Returns papers)
                | Some batch =>
                    match collect paper_data batch with
                    | Raises e => Some (Raises e)
                    | Returns new =>
                        let papers := papers ++ new in
                        let offset := offset + len batch in
                        if (len batch <? limit) || (1000 <=? offset)
                        then Some (Returns papers)
                        else author_papers_loop fuel' (S n) aid limit offset papers
                    end
                end
            end
      end
  end.

Definition get_author_papers (fuel : nat) (self_author_id author_id : option string)
    (limit : Z) : option (outcome (list PaperData)) :=
  let aid := str_or author_id self_author_id in
  match aid with
  | Some (String c aid') => author_papers_loop fuel 0 (String c aid') limit 0 []
  | _ => Some (Raises (PyError "ValueError" "Author ID required"))
  end.
End Session.

(** A service that holds the papers [all] of the author and answers
    every request with status 200 and the page asked for. *)
Definition paging_service (all : list RawPaper) (n : nat) (aid : string)
    (limit offset : Z) : outcome Response :=
  Returns {| status_code := 200;
             json_data :=
               Returns (Val (take (Z.to_nat limit) (drop (Z.to_nat offset) all))) |}.

(** The number of papers after which the loop stops asking: the first
    multiple of [limit] that reaches 1000. *)
Definition page_cap (limit : Z) : Z := limit * (999 / limit + 1).

(** A paper of which the service knows the title only. *)
Definition raw_titled (t : string) : RawPaper :=
  {| raw_title := Val t; raw_paperId := Null; raw_externalIds := Absent;
     raw_year := Null; raw_venue := Null; raw_citationCount := Absent;
     raw_referenceCount := Absent; raw_abstract := Null; raw_url := Null;
     raw_publicationDate := Null; raw_authors := Absent |}.

End SemanticScholarClient.

(** ** Data fetcher *)

(** The configuration of one platform, a class of the configuration
    module outside this component: the attributes the fetcher reads. *)
Record PlatformConfig : Type := mkPlatformConfig {
  enabled : bool;
  client_id : option string;
  client_secret : option string;
  api_key : option string;
  author_id : option string
}.

(** The dictionary a platform fetch returns. *)
Record FetchResult : Type := mkFetchResult {
  fetched_platform : string;
  fetched_papers : Z;
  fetched_citations : Z;
  fetched_h_index : option Z
}.

(** An entry of the dictionary [fetch_all] returns: the result of the
    platform, or [{'error': str(e)}]. *)
Inductive FetchEntry : Type :=
  | Fetched (result : FetchResult)
  | Failed (error : string).

(** [d.get(key)] on a dictionary kept as the list of its items, in
    insertion order. *)
Fixpoint dict_get {V} (key : string) (d : list (string * V)) : option V :=
  match d with
  | [] => None
  | (k, v) :: d' => if bool_decide (k = key) then Some v else dict_get key d'
  end.

(** The platforms [fetch_platform] dispatches on. *)
Definition supported_platforms : list string :=
  ["orcid"; "arxiv"; "semantic_scholar"; "google_scholar"]%string.

Module DataFetcher.
Section Fetchers.
(** What the four platform fetches read and change (database,
    configuration file, network), and the fetches themselves, which
    return or raise and leave a new state. *)
Variable World : Type.
Variable _fetch_orcid : World → outcome FetchResult * World.
Variable _fetch_arxiv : World → outcome FetchResult * World.
Variable _fetch_semantic_scholar : World → outcome FetchResult * World.
Variable _fetch_google_scholar : World → outcome FetchResult * World.

Definition fetch_platform (platforms : list (string * PlatformConfig))
    (platform : string) (w : World) : outcome FetchResult * World :=
  let not_enabled :=
    Raises (PyError "Exception" ("Platform " +:+ platform +:+ " not enabled")) in
  match dict_get platform platforms with
  | None => (not_enabled, w)
  | Some platform_config =>
      if negb (enabled platform_config) then (not_enabled, w)
      else if bool_decide (platform = "orcid"%string) then _fetch_orcid w
      else if bool_decide (platform = "arxiv"%string) then _fetch_arxiv w
      else if bool_decide (platform = "semantic_scholar"%string)
           then _fetch_semantic_scholar w
      else if bool_decide (platform = "google_scholar"%string)
           then _fetch_google_scholar w
      else (Raises (PyError "Exception"
                      ("Platform " +:+ platform +:+ " not supported yet")), w)
  end.

(** One iteration of the loop of [fetch_all] over the items of the
    platform dictionary. *)
Definition fetch_all_step (platforms : list (string * PlatformConfig))
    (acc : gmap string FetchEntry * World) (item : string * PlatformConfig)
    : gmap string FetchEntry * World :=
  let '(results, w) := acc in
  let '(platform, config) := item in
  if enabled config then
    match fetch_platform platforms platform w with
    | (Returns result, w') => (<[platform := Fetched result]> results, w')
    | (Raises e, w') => (<[platform := Failed (str e)]> results, w')
    end
  else (results, w).

Definition fetch_all (platforms : list (string * PlatformConfig)) (w : World)
    : gmap string FetchEntry * World :=
  foldl (fetch_all_step platforms) (∅, w) platforms.

(** The entry [fetch_all] stores for an outcome. *)
Definition entry_of (o : outcome FetchResult) : FetchEntry :=
  match o with
  | Returns result => Fetched result
  | Raises e => Failed (str e)
  end.
End Fetchers.
End DataFetcher.

(** A configuration with ORCID and an unknown platform enabled and
    arXiv disabled, and fetches that log their name; the ORCID fetch
    fails. *)
Definition example_platforms : list (string * PlatformConfig) :=
  [ ("orcid", mkPlatformConfig true None None None None);
    ("arxiv", mkPlatformConfig false None None None None);
    ("scopus", mkPlatformConfig true None None None None);
    ("semantic_scholar", mkPlatformConfig true None None None (Some "1741101")) ]%string.

Definition example_fetch_fails (w : list string) : outcome FetchResult * list string :=
  (Raises (PyError "Exception" "ORCID API error: 500"), w ++ ["orcid"%string]).

Definition example_fetch (name : string) (w : list string)
    : outcome FetchResult * list string :=
  (Returns (mkFetchResult name (len w) 0 None), w ++ [name]).

Definition example_fetch_all : gmap string FetchEntry * list string :=
  DataFetcher.fetch_all (list string) example_fetch_fails (example_fetch "arxiv")
    (example_fetch "semantic_scholar") (example_fetch "google_scholar")
    example_platforms [].

(** ** arXiv client *)

(** [s.split(sep)] for a non-empty separator: the input is scanned from
    the left and cut at every occurrence of [sep] that does not overlap
    the one before.  [skip] counts the characters of a matched separator
    still to pass, [cur] is the piece read so far. *)
Fixpoint split_from (sep : string) (skip : nat) (cur s : string) : list string :=
  match s with
  | EmptyString => [cur]
  | String c s' =>
      match skip with
      | S k => split_from sep k cur s'
      | O =>
          if String.prefix sep s
          then cur :: split_from sep (String.length sep - 1) EmptyString s'
          else split_from sep 0 (cur +:+ String c EmptyString) s'
      end
  end.

Definition py_split (sep s : string) : list string :=
  split_from sep 0 EmptyString s.

(** [l[-1]]. *)
Definition py_last {A} (l : list A) : outcome A :=
  match last l with
  | Some x => Returns x
  | None => Raises (PyError "IndexError" "list index out of range")
  end.

Module ArXivClient.

(** What the code reads of a [datetime]. *)
Record Datetime : Type := mkDatetime {
  dt_year : Z;
  dt_isoformat : string
}.

(** A search result of the [arxiv] library. *)
Record Result : Type := mkResult {
  entry_id : string;
  res_title : string;
  res_doi : option string;
  published : Datetime;
  summary : string;
  res_authors : list string;
  categories : list string;
  primary_category : string;
  updated : option Datetime
}.

(** The dictionary built for one result. *)
Record ArxivPaper : Type := mkArxivPaper {
  ap_title : string;
  ap_arxiv_id : string;
  ap_doi : option string;
  ap_year : Z;
  ap_abstract : string;
  ap_authors : list string;
  ap_url : string;
  ap_categories : list string;
  ap_primary_category : string;
  ap_published : string;
  ap_updated : option string
}.

(** [result.entry_id.split('/abs/')[-1]]. *)
Definition arxiv_id_of (entry : string) : outcome string :=
  py_last (py_split "/abs/" entry).

Definition paper_of_result (result : Result) : outcome ArxivPaper :=
  match arxiv_id_of (entry_id result) with
  | Raises e => Raises e
  | Returns arxiv_id =>
      Returns {| ap_title := res_title result;
                 ap_arxiv_id := arxiv_id;
                 ap_doi := res_doi result;
                 ap_year := dt_year (published result);
                 ap_abstract := summary result;
                 ap_authors := res_authors result;
                 ap_url := entry_id result;
                 ap_categories := categories result;
                 ap_primary_category := primary_category result;
                 ap_published := dt_isoformat (published result);
                 ap_updated := dt_isoformat <$> updated result |}
  end.

(** The double quote character. *)
Definition dquote : string := String (ascii_of_N 34) EmptyString.

Section Library.
(** [self.client.results(arxiv.Search(query, max_results, ...))]. *)
Variable client_results : string → Z → outcome (list Result).

Definition search_by_author (self_author_name author_name : option string)
    (max_results : Z) : outcome (list ArxivPaper) :=
  let search_name := str_or author_name self_author_name in
  match search_name with
  | Some (String c name) =>
      let query := "au:" +:+ dquote +:+ String c name +:+ dquote in
      match client_results query max_results with
      | Raises e => Raises e
      | Returns results => collect paper_of_result results
      end
  | _ => Raises (PyError "ValueError" "Author name required")
  end.
End Library.
(** A result as the library gives it. *)
Definition example_result : Result :=
  {| entry_id := "http://arxiv.org/abs/2101.00001v1"; res_title := "T";
     res_doi := None; published := mkDatetime 2021 "2021-01-01T00:00:00+00:00";
     summary := "S"; res_authors := ["A. Author"]; categories := ["cs.LO"];
     primary_category := "cs.LO"; updated := None |}%string.

End ArXivClient.

(** * Properties *)

(** ** Sorting *)

Section PySortedFacts.
Context {A K : Type}.
Variable leb : K → K → bool.
Variable key : A → K.
Hypothesis leb_total : ∀ a b, leb a b = true ∨ leb b a = true.
Hypothesis leb_trans : ∀ a b c, leb a b = true → leb b c = true → leb a c = true.

Lemma insert_rev_perm x l : insert_rev leb key x l ≡ₚ x :: l.
Proof.
  induction l as [|y l IH]; simpl; [done|].
  destruct (leb (key y) (key x)); [done|].
  rewrite IH. apply Permutation_swap.
Qed.

Lemma py_sorted_rev_perm l : py_sorted_rev leb key l ≡ₚ l.
Proof.
  induction l as [|x l IH]; simpl; [done|].
  rewrite insert_rev_perm. by f_equiv.
Qed.

Lemma py_sorted_rev_length l : length (py_sorted_rev leb key l) = length l.
Proof. by rewrite py_sorted_rev_perm. Qed.

Lemma insert_rev_sorted x l :
  StronglySorted (desc leb key) l → StronglySorted (desc leb key) (insert_rev leb key x l).
Proof.
  induction 1 as [|y l Hl IH Hy]; simpl.
  - repeat constructor.
  - destruct (leb (key y) (key x)) eqn:E.
    + constructor; [by constructor|].
      constructor; [done|].
      eapply Forall_impl; [exact Hy|]. unfold desc. eauto.
    + constructor; [done|].
      rewrite insert_rev_perm. constructor; [|done].
      unfold desc. destruct (leb_total (key x) (key y)); congruence.
Qed.

Lemma py_sorted_rev_sorted l : StronglySorted (desc leb key) (py_sorted_rev leb key l).
Proof.
  induction l as [|x l IH]; simpl; [constructor|].
  by apply insert_rev_sorted.
Qed.

(** Stability: the elements whose key is equivalent to [k] come out in
    their input order. *)
Lemma insert_rev_stable k x l :
  List.filter (same_key leb key k) (insert_rev leb key x l)
  = List.filter (same_key leb key k) (x :: l).
Proof.
  induction l as [|y l IH]; [done|].
  cbn [insert_rev]. destruct (leb (key y) (key x)) eqn:E; [done|].
  cbn [List.filter] in *. rewrite IH.
  destruct (same_key leb key k x) eqn:Ex, (same_key leb key k y) eqn:Ey; try done.
  unfold same_key in *.
  apply andb_prop in Ex as [Ex1 Ex2]. apply andb_prop in Ey as [Ey1 Ey2].
  rewrite (leb_trans _ _ _ Ey2 Ex1) in E. discriminate.
Qed.

Lemma py_sorted_rev_stable k l :
  List.filter (same_key leb key k) (py_sorted_rev leb key l) = List.filter (same_key leb key k) l.
Proof.
  induction l as [|x l IH]; [done|].
  cbn [py_sorted_rev foldr]. rewrite insert_rev_stable.
  cbn [List.filter]. fold (py_sorted_rev leb key l). by rewrite IH.
Qed.
End PySortedFacts.

(** Integer keys: [Z.leb] is a total, transitive, antisymmetric order. *)
Lemma Zleb_total a b : (a <=? b) = true ∨ (b <=? a) = true.
Proof. lia. Qed.

Lemma Zleb_trans a b c : (a <=? b) = true → (b <=? c) = true → (a <=? c) = true.
Proof. lia. Qed.

Lemma desc_Z_flip_le {A} (key : A → Z) x y : desc Z.leb key x y ↔ key y ≤ key x.
Proof. unfold desc. lia. Qed.

Lemma StronglySorted_mono {A} (R1 R2 : relation A) l :
  (∀ x y, R1 x y → R2 x y) → StronglySorted R1 l → StronglySorted R2 l.
Proof.
  intros HR. induction 1 as [|x l Hl IH Hx]; constructor; [done|].
  eapply Forall_impl; eauto.
Qed.

Lemma py_sorted_rev_Z_sorted (l : list Z) :
  StronglySorted (flip Z.le) (py_sorted_rev Z.leb id l).
Proof.
  eapply StronglySorted_mono; [|apply py_sorted_rev_sorted; [apply Zleb_total|apply Zleb_trans]].
  intros x y. rewrite desc_Z_flip_le. done.
Qed.

(** The descending rearrangement of a list of integers is unique, so
    [py_sorted_rev] computes it. *)
Lemma py_sorted_rev_Z_unique (l s : list Z) :
  s ≡ₚ l → Sorted (flip Z.le) s → py_sorted_rev Z.leb id l = s.
Proof.
  intros Hp Hs.
  apply (StronglySorted_unique_strong (flip Z.le)).
  - unfold flip. intros; lia.
  - apply py_sorted_rev_Z_sorted.
  - apply Sorted_StronglySorted; [|done]. unfold flip. intros x y z; lia.
  - by rewrite py_sorted_rev_perm.
Qed.

Lemma sorted_desc_lookup (s : list Z) (j k : nat) x y :
  StronglySorted (flip Z.le) s → (j ≤ k)%nat →
  s !! j = Some x → s !! k = Some y → y ≤ x.
Proof.
  intros Hs. revert j k. induction Hs as [|a s Hs IH Ha]; intros j k Hjk Hj Hk.
  - done.
  - destruct j as [|j], k as [|k]; simpl in *; simplify_eq; try lia.
    + rewrite Forall_forall in Ha. apply Ha. eapply list_elem_of_lookup_2; eauto.
    + eapply IH; [|done..]. lia.
Qed.

(** ** The h-index loop *)

Lemma h_index_loop_bounds l i h :
  h = i - 1 → h ≤ h_index_loop i h l ≤ h + len l.
Proof.
  unfold len. revert i h. induction l as [|c l IH]; intros i h ->; simpl; [lia|].
  destruct (i <=? c); [|lia].
  specialize (IH (i + 1) i). lia.
Qed.

(** Every rank up to the returned one passed the test of the loop. *)
Lemma h_index_loop_passed l i h (j : nat) c :
  h = i - 1 → l !! j = Some c → i + Z.of_nat j ≤ h_index_loop i h l → i + Z.of_nat j ≤ c.
Proof.
  revert i h j. induction l as [|c0 l IH]; intros i h j -> Hj Hr; [done|].
  simpl in Hr. destruct (i <=? c0) eqn:E; [|lia].
  destruct j as [|j]; simpl in Hj.
  - simplify_eq. lia.
  - apply (IH (i + 1) i j) in Hj; lia.
Qed.

(** The rank after the returned one, when there is one, failed it. *)
Lemma h_index_loop_stopped l i h c :
  h = i - 1 →
  l !! Z.to_nat (h_index_loop i h l - h) = Some c → c < h_index_loop i h l + 1.
Proof.
  revert i h. induction l as [|c0 l IH]; intros i h ->; [done|].
  simpl. destruct (i <=? c0) eqn:E.
  - pose proof (h_index_loop_bounds l (i + 1) i) as Hb.
    replace (Z.to_nat (h_index_loop (i + 1) i l - (i - 1)))
      with (S (Z.to_nat (h_index_loop (i + 1) i l - i))) by lia.
    simpl. apply IH. lia.
  - replace (i - 1 - (i - 1)) with 0 by lia. simpl. intros; simplify_eq. lia.
Qed.

(** On a descending list the loop returns the largest rank whose value
    reaches it. *)
Lemma h_index_loop_largest s (j : nat) c :
  StronglySorted (flip Z.le) s →
  s !! j = Some c → 1 + Z.of_nat j ≤ c → 1 + Z.of_nat j ≤ h_index_loop 1 0 s.
Proof.
  intros Hs Hj Hc.
  destruct (decide (1 + Z.of_nat j ≤ h_index_loop 1 0 s)) as [|Hn]; [done|exfalso].
  pose proof (h_index_loop_bounds s 1 0 eq_refl) as Hb.
  set (r := h_index_loop 1 0 s) in *.
  assert (Hlt : (Z.to_nat (r - 0) < length s)%nat).
  { apply lookup_lt_Some in Hj. lia. }
  apply lookup_lt_is_Some_2 in Hlt as [c' Hc'].
  pose proof (h_index_loop_stopped s 1 0 c' eq_refl Hc') as Hstop.
  assert (c ≤ c').
  { eapply (sorted_desc_lookup s (Z.to_nat (r - 0)) j); [done| |done..]. lia. }
  fold r in Hstop. lia.
Qed.

Lemma calculate_h_index_sorted (counts : list Z) :
  calculate_h_index counts = h_index_loop 1 0 (py_sorted_rev Z.leb id counts).
Proof. by destruct counts. Qed.

Lemma calculate_h_index_bounds (counts : list Z) :
  0 ≤ calculate_h_index counts ≤ len counts.
Proof.
  rewrite calculate_h_index_sorted.
  pose proof (h_index_loop_bounds (py_sorted_rev Z.leb id counts) 1 0 eq_refl) as Hb.
  unfold len in *. rewrite py_sorted_rev_length in Hb. lia.
Qed.

(** C1. [calculate_h_index] returns the largest rank [i] such that the
    [i]-th value of the counts sorted in descending order is at least [i]
    (0 when no rank qualifies, in particular for the empty list); it
    returns 0 on [[]], 3 on [[5;3;3;1]] and 3 on [[10;10;10]]. *)
Theorem C1_h_index_is_largest_qualifying_rank (counts s : list Z) :
  s ≡ₚ counts → Sorted (flip Z.le) s →
  let h := calculate_h_index counts in
  0 ≤ h ≤ len counts
  ∧ (h ≠ 0 → ∃ c, s !! Z.to_nat (h - 1) = Some c ∧ h ≤ c)
  ∧ (∀ i c, 1 ≤ i → s !! Z.to_nat (i - 1) = Some c → i ≤ c → i ≤ h)
  ∧ calculate_h_index [] = 0
  ∧ calculate_h_index [5; 3; 3; 1] = 3
  ∧ calculate_h_index [10; 10; 10] = 3.
Proof.
  intros Hp Hs h.
  pose proof (calculate_h_index_bounds counts) as Hb. fold h in Hb.
  assert (Hh : h = h_index_loop 1 0 s).
  { unfold h. rewrite calculate_h_index_sorted. by rewrite (py_sorted_rev_Z_unique counts s). }
  assert (Hss : StronglySorted (flip Z.le) s).
  { apply Sorted_StronglySorted; [|done]. unfold flip. intros x y z; lia. }
  split; [done|]. split; [|split; [|done]].
  - intros Hne.
    assert (Hlt : (Z.to_nat (h - 1) < length s)%nat).
    { rewrite Hp. unfold len in Hb. lia. }
    apply lookup_lt_is_Some_2 in Hlt as [c Hc]. exists c. split; [done|].
    pose proof (h_index_loop_passed s 1 0 (Z.to_nat (h - 1)) c eq_refl Hc). lia.
  - intros i c Hi Hc Hic. rewrite Hh.
    pose proof (h_index_loop_largest s (Z.to_nat (i - 1)) c Hss Hc). lia.
Qed.

Lemma C1_witness :
  let s := [5; 3; 3; 1] in
  let h := calculate_h_index [3; 1; 5; 3] in
  0 ≤ h ≤ 4
  ∧ (h ≠ 0 → ∃ c, s !! Z.to_nat (h - 1) = Some c ∧ h ≤ c)
  ∧ (∀ i c, 1 ≤ i → s !! Z.to_nat (i - 1) = Some c → i ≤ c → i ≤ h).
Proof.
  assert (Hp : [5; 3; 3; 1] ≡ₚ [3; 1; 5; 3]).
  { apply (Permutation_cons_app [3; 1] [3]). apply perm_skip, perm_swap. }
  assert (Hs : Sorted (flip Z.le) [5; 3; 3; 1]).
  { repeat constructor; unfold flip; lia. }
  pose proof (C1_h_index_is_largest_qualifying_rank [3; 1; 5; 3] [5; 3; 3; 1] Hp Hs) as H.
  simpl in H. destruct H as (H1 & H2 & H3 & _). auto.
Defined.

(** C9. [calculate_h_index] gives the same result on any two lists that
    are rearrangements of each other, and its result lies between 0 and
    the length of the list. *)
Theorem C9_h_index_permutation_invariant_and_bounded (counts counts' : list Z) :
  counts ≡ₚ counts' →
  calculate_h_index counts = calculate_h_index counts'
  ∧ 0 ≤ calculate_h_index counts ≤ len counts.
Proof.
  intros Hp. split; [|apply calculate_h_index_bounds].
  rewrite !calculate_h_index_sorted. f_equal.
  apply py_sorted_rev_Z_unique.
  - rewrite py_sorted_rev_perm. by symmetry.
  - apply StronglySorted_Sorted, py_sorted_rev_Z_sorted.
Qed.

Lemma C9_witness :
  calculate_h_index [1; 5; 3; 3] = calculate_h_index [5; 3; 3; 1]
  ∧ 0 ≤ calculate_h_index [1; 5; 3; 3] ≤ 4.
Proof.
  apply (C9_h_index_permutation_invariant_and_bounded [1; 5; 3; 3] [5; 3; 3; 1]).
  change [5; 3; 3; 1] with ([5; 3; 3] ++ [1]).
  apply Permutation_cons_append.
Defined.

(** ** Summary statistics *)

Lemma py_truediv_guarded a b : 0 < b → py_truediv a b ≠ Raise ZeroDivisionError.
Proof.
  intros Hb. unfold py_truediv. destruct (b =? 0) eqn:E; [lia|].
  by destruct (nearest_double a b).
Qed.

Lemma get_summary_stats_no_zero_division db period :
  get_summary_stats db period ≠ Raise ZeroDivisionError.
Proof.
  unfold get_summary_stats.
  destruct (0 <? len (get_papers_with_latest_citations db)) eqn:E; simpl; [|done].
  pose proof (py_truediv_guarded
                (py_sum (citations <$> get_papers_with_latest_citations db))
                (len (get_papers_with_latest_citations db)) ltac:(lia)) as Hg.
  destruct (py_truediv _ _) as [avg|e]; simpl; [done|]. congruence.
Qed.

(** C8. [get_summary_stats] never raises a division by zero (the
    division is guarded), and on an empty paper set it returns
    [total_papers = 0], [total_citations = 0], [h_index = 0] and
    [avg_citations = 0]. *)
Theorem C8_summary_stats_empty_no_division_fault db period :
  get_summary_stats db period ≠ Raise ZeroDivisionError
  ∧ (get_papers_with_latest_citations db = [] →
     get_summary_stats db period
     = Ok {| total_papers := 0; total_citations := 0; h_index := 0;
             avg_citations := 0; papers_change := 0; citations_change := 0;
             h_index_change := 0 |}).
Proof.
  split; [apply get_summary_stats_no_zero_division|].
  intros Hempty. unfold get_summary_stats. rewrite Hempty. reflexivity.
Qed.

Lemma C8_witness :
  get_summary_stats (db_of_papers []) "all"
  = Ok {| total_papers := 0; total_citations := 0; h_index := 0;
          avg_citations := 0; papers_change := 0; citations_change := 0;
          h_index_change := 0 |}.
Proof.
  apply (C8_summary_stats_empty_no_division_fault (db_of_papers []) "all").
  reflexivity.
Defined.

(** ** Comprehensions and slices *)

Lemma comprehension_Ok {A B} (f : A → result B) l out :
  comprehension f l = Ok out ↔ Forall2 (λ x y, f x = Ok y) l out.
Proof.
  revert out. induction l as [|x l IH]; intros out; simpl.
  - split; [intros [= <-]; constructor|by inversion 1].
  - split.
    + destruct (f x) as [y|] eqn:Ex; simpl; [|done].
      destruct (comprehension f l) as [ys|] eqn:El; simpl; [|done].
      intros [= <-]. constructor; [done|]. by apply IH.
    + inversion 1 as [|? y ? ys Hy Hys]; subst. rewrite Hy. simpl.
      apply IH in Hys. rewrite Hys. done.
Qed.

Lemma comprehension_total {A B} (f : A → result B) l :
  Forall (λ x, ∃ y, f x = Ok y) l → ∃ out, comprehension f l = Ok out.
Proof.
  induction 1 as [|x l [y Hy] _ [ys Hys]]; simpl; [eauto|].
  rewrite Hy, Hys. simpl. eauto.
Qed.

Lemma slice_to_take {A} (limit : Z) (l : list A) :
  ∃ n, slice_to limit l = take n l ∧ (0 ≤ limit → n = Z.to_nat limit).
Proof.
  unfold slice_to. destruct (0 <=? limit) eqn:E.
  - eauto.
  - eexists. split; [done|lia].
Qed.

Lemma slice_to_negative_length {A} (limit : Z) (l : list A) :
  limit < 0 → len (slice_to limit l) = Z.max 0 (len l + limit).
Proof.
  intros Hneg. unfold slice_to, len. destruct (0 <=? limit) eqn:E; [lia|].
  rewrite length_take. lia.
Qed.

Lemma filter_prefix {A} (f : A → bool) (l1 l2 : list A) :
  l1 `prefix_of` l2 → List.filter f l1 `prefix_of` List.filter f l2.
Proof. intros [k ->]. rewrite List.filter_app. by eexists. Qed.

Lemma StronglySorted_take {A} (R : relation A) n l :
  StronglySorted R l → StronglySorted R (take n l).
Proof.
  intros Hl. rewrite <- (take_drop n l) in Hl.
  by apply StronglySorted_app_1_l in Hl.
Qed.

Lemma StronglySorted_Forall2 {A B} (R : relation A) (S : relation B)
    (P : A → B → Prop) l k :
  (∀ x x' y y', P x y → P x' y' → R x x' → S y y') →
  Forall2 P l k → StronglySorted R l → StronglySorted S k.
Proof.
  intros HP HF. induction HF as [|x y l k Hxy HF IH]; intros Hs; [constructor|].
  apply StronglySorted_cons in Hs as [Hx Hl].
  constructor; [by apply IH|].
  clear IH Hl. induction HF as [|x' y' l k Hxy' HF IH]; [constructor|].
  apply Forall_cons in Hx as [Hxx' Hx].
  constructor; [by eapply HP|by apply IH].
Qed.

(** ** Top papers *)

Lemma top_entry_citations p e : top_entry p = Ok e → top_citations e = citations p.
Proof.
  unfold top_entry. destruct (year p); simpl; [done|by intros [= <-]..].
Qed.

Lemma top_entry_total p : year p ≠ Absent → ∃ e, top_entry p = Ok e.
Proof. unfold top_entry. destruct (year p); simpl; [done|eauto..]. Qed.

(** C4 (as the code has it). For a non-negative [limit], [get_top_papers]
    returns at most [limit] entries; for every [limit] the entries are
    sorted non-increasing by citation count, and the papers behind the
    entries with one citation count stand in their input order.  The
    operation returns whenever every paper has a [year] key. *)
Theorem C4_top_papers_bounded_sorted_stable db limit :
  let papers := get_papers_with_latest_citations db in
  (Forall (λ p, year p ≠ Absent) papers → ∃ out, get_top_papers db limit = Ok out)
  ∧ ∀ out, get_top_papers db limit = Ok out →
      (0 ≤ limit → len out ≤ limit)
      ∧ (limit < 0 → len out = Z.max 0 (len papers + limit))
      ∧ StronglySorted (λ a b, top_citations b ≤ top_citations a) out
      ∧ ∃ top, Forall2 (λ p e, top_entry p = Ok e) top out
          ∧ ∀ c, List.filter (λ p, citations p =? c) top
                 `prefix_of` List.filter (λ p, citations p =? c) papers.
Proof.
  intros papers. unfold get_top_papers. fold papers.
  set (sorted := py_sorted_rev Z.leb citations papers).
  split.
  - intros Hyear. apply comprehension_total.
    destruct (slice_to_take limit sorted) as (n & -> & _).
    apply Forall_take. unfold sorted. rewrite py_sorted_rev_perm.
    eapply Forall_impl; [exact Hyear|]. intros p. apply top_entry_total.
  - intros out Hout. apply comprehension_Ok in Hout.
    pose proof (Forall2_length _ _ _ Hout) as Hlen.
    split; [|split; [|split]].
    + intros Hpos. destruct (slice_to_take limit sorted) as (n & Hn & Hlim).
      rewrite Hn, length_take, (Hlim Hpos) in Hlen. unfold len. lia.
    + intros Hneg. pose proof (slice_to_negative_length limit sorted Hneg) as Hs.
      unfold len in *. unfold sorted in Hs at 2. rewrite py_sorted_rev_length in Hs. lia.
    + eapply (StronglySorted_Forall2 (desc Z.leb citations)); [|exact Hout|].
      * intros p p' e e' He He' Hd. apply desc_Z_flip_le in Hd.
        rewrite (top_entry_citations _ _ He), (top_entry_citations _ _ He'). done.
      * destruct (slice_to_take limit sorted) as (n & -> & _).
        apply StronglySorted_take, py_sorted_rev_sorted; [apply Zleb_total|apply Zleb_trans].
    + exists (slice_to limit sorted). split; [done|]. intros c.
      destruct (slice_to_take limit sorted) as (n & -> & _).
      assert (Hst : List.filter (λ p, citations p =? c) sorted
                    = List.filter (λ p, citations p =? c) papers).
      { rewrite !(List.filter_ext (λ p, citations p =? c) (same_key Z.leb citations c)).
        - apply py_sorted_rev_stable, Zleb_trans.
        - intros p. unfold same_key. lia.
        - intros p. unfold same_key. lia. }
      rewrite <- Hst. apply filter_prefix, prefix_take.
Qed.

Lemma C4_witness :
  ∃ out, get_top_papers (db_of_papers [paper_2021_1; paper_2020_3; paper_2020_5]) 2 = Ok out
  ∧ len out ≤ 2
  ∧ StronglySorted (λ a b, top_citations b ≤ top_citations a) out.
Proof.
  pose proof (C4_top_papers_bounded_sorted_stable
                (db_of_papers [paper_2021_1; paper_2020_3; paper_2020_5]) 2) as [H1 H2].
  destruct H1 as [out Hout].
  { simpl. repeat constructor; discriminate. }
  exists out. destruct (H2 out Hout) as (Hb & _ & Hs & _).
  split; [done|]. split; [apply Hb; lia|done].
Defined.

(** C4, as stated, fails for a negative [limit]: [papers[:-1]] drops the
    last paper only, so one entry is returned for [limit = -1]. *)
Lemma C4_counterexample :
  ∃ out, get_top_papers (db_of_papers [paper_2020_5; paper_2020_3]) (-1) = Ok out
  ∧ ¬ (len out ≤ -1).
Proof. eexists. split; [reflexivity|]. unfold len. simpl. lia. Qed.

(** ** Paper statistics *)

Lemma horizon_max_nonneg now horizon history : 0 ≤ horizon_max now horizon history.
Proof.
  unfold horizon_max.
  induction (citation_count <$> List.filter _ history) as [|c l IH];
    cbn [foldr]; lia.
Qed.

Lemma horizon_max_cons now horizon r history :
  horizon_max now horizon (r :: history)
  = if days_between now (timestamp r) <=? horizon
    then Z.max (citation_count r) (horizon_max now horizon history)
    else horizon_max now horizon history.
Proof.
  unfold horizon_max. simpl.
  by destruct (days_between now (timestamp r) <=? horizon).
Qed.

(** The loop over the history raises each of the three running maxima
    to the maximum of its horizon. *)
Lemma history_loop now history c7d c30d c1y :
  0 ≤ c7d → 0 ≤ c30d → 0 ≤ c1y →
  foldl (history_step now) (c7d, c30d, c1y) history
  = (Z.max c7d (horizon_max now 7 history),
     Z.max c30d (horizon_max now 30 history),
     Z.max c1y (horizon_max now 365 history)).
Proof.
  revert c7d c30d c1y.
  induction history as [|r history IH]; intros c7d c30d c1y H7 H30 H1y.
  - simpl. unfold horizon_max. simpl. repeat apply (f_equal2 pair); lia.
  - cbn [foldl]. unfold history_step at 2. rewrite !horizon_max_cons.
    destruct (days_between now (timestamp r) <=? 7),
             (days_between now (timestamp r) <=? 30),
             (days_between now (timestamp r) <=? 365);
      (rewrite IH by lia); repeat apply (f_equal2 pair); lia.
Qed.

Lemma fetchone_filter_None {A} (f : A → bool) (rows : list A) :
  fetchone (List.filter f rows) = None ↔ ∀ row, row ∈ rows → f row = false.
Proof.
  unfold fetchone. induction rows as [|r rows IH]; simpl.
  - split; [intros _ row Hin; by apply elem_of_nil in Hin|done].
  - destruct (f r) eqn:E; simpl.
    + split; [done|]. intros H. specialize (H r (list_elem_of_here _ _)). congruence.
    + rewrite IH. split.
      * intros H row [->|Hin]%elem_of_cons; auto.
      * intros H row Hin. apply H. by apply list_elem_of_further.
Qed.

Lemma row_matches_true identifier row :
  row_matches identifier row = true
  ↔ row_doi row = Some identifier ∨ row_arxiv_id row = Some identifier.
Proof.
  unfold row_matches. rewrite orb_true_iff, !bool_decide_eq_true. done.
Qed.

Lemma foldl_max_ge (l : list Z) x :
  x ≤ foldl Z.max x l ∧ ∀ y, y ∈ l → y ≤ foldl Z.max x l.
Proof.
  revert x. induction l as [|z l IH]; intros x; simpl.
  - split; [lia|]. intros y Hy. by apply elem_of_nil in Hy.
  - destruct (IH (Z.max x z)) as [H1 H2]. split; [lia|].
    intros y [->|Hy]%elem_of_cons; [lia|by apply H2].
Qed.

Lemma sql_max_ge (l : list Z) y : y ∈ l → ∃ m, sql_max l = Some m ∧ y ≤ m.
Proof.
  destruct l as [|x l]; [intros Hy; by apply elem_of_nil in Hy|].
  intros Hy. eexists. split; [reflexivity|].
  destruct (foldl_max_ge l x) as [H1 H2].
  apply elem_of_cons in Hy as [->|Hy]; [done|by apply H2].
Qed.

(** A positive maximum of a horizon is the count of a history record. *)
Lemma horizon_max_attained now horizon history :
  0 < horizon_max now horizon history →
  ∃ r, r ∈ history ∧ citation_count r = horizon_max now horizon history.
Proof.
  induction history as [|r history IH]; [unfold horizon_max; simpl; lia|].
  rewrite horizon_max_cons.
  destruct (days_between now (timestamp r) <=? horizon).
  - intros Hpos.
    destruct (Z.max_spec (citation_count r) (horizon_max now horizon history))
      as [[Hlt Hmax]|[Hle Hmax]]; rewrite Hmax in *.
    + destruct (IH Hpos) as (r' & Hin & Hr'). exists r'. split; [|done].
      by apply list_elem_of_further.
    + exists r. split; [apply list_elem_of_here|done].
  - intros Hpos. destruct (IH Hpos) as (r' & Hin & Hr'). exists r'. split; [|done].
    by apply list_elem_of_further.
Qed.

(** The current count, a maximum over the citation rows of the paper, is
    not below a positive count of one of these rows. *)
Lemma current_citations_ge (table : list CitationRow) paper_id x :
  (∃ c, c ∈ table ∧ cit_paper_id c = paper_id ∧ cit_citation_count c = x) →
  0 < x →
  x ≤ match sql_max (cit_citation_count <$>
                     List.filter (λ c, cit_paper_id c =? paper_id) table) with
      | Some c => if c =? 0 then 0 else c
      | None => 0
      end.
Proof.
  intros (c & Hin & Hid & Hx) Hpos.
  assert (Hmem : x ∈ cit_citation_count <$>
                     List.filter (λ c, cit_paper_id c =? paper_id) table).
  { apply list_elem_of_fmap. exists c. split; [done|].
    apply list_elem_of_In, List.filter_In. split; [by apply list_elem_of_In|lia]. }
  destruct (sql_max_ge _ _ Hmem) as (m & -> & Hm).
  destruct (m =? 0) eqn:E; lia.
Qed.

Lemma get_paper_stats_found db identifier now paper :
  fetchone (List.filter (row_matches identifier) (papers_table db)) = Some paper →
  ∃ stats, get_paper_stats db identifier now = Ok stats
    ∧ let history := get_citation_history db (row_id paper) 365 in
      citations_7d stats
      = guarded_growth (stats_citations stats) (horizon_max now 7 history)
      ∧ citations_30d stats
        = guarded_growth (stats_citations stats) (horizon_max now 30 history)
      ∧ citations_1y stats
        = guarded_growth (stats_citations stats) (horizon_max now 365 history)
      ∧ (history_from_table db (row_id paper) →
         ∀ horizon, 0 ≤ guarded_growth (stats_citations stats)
                          (horizon_max now horizon history)).
Proof.
  intros Hfetch. unfold get_paper_stats. rewrite Hfetch.
  rewrite history_loop by done.
  eexists. split; [reflexivity|]. simpl.
  pose proof (horizon_max_nonneg now 7 (get_citation_history db (row_id paper) 365)).
  pose proof (horizon_max_nonneg now 30 (get_citation_history db (row_id paper) 365)).
  pose proof (horizon_max_nonneg now 365 (get_citation_history db (row_id paper) 365)).
  rewrite !Z.max_r by done. split; [done|]. split; [done|]. split; [done|].
  intros Hsub horizon. unfold guarded_growth.
  set (history := get_citation_history db (row_id paper) 365) in *.
  pose proof (horizon_max_nonneg now horizon history) as Hnn.
  destruct (horizon_max now horizon history =? 0) eqn:E; [done|].
  destruct (horizon_max_attained now horizon history) as (r & Hr & Hcount); [lia|].
  destruct (Hsub r Hr) as (c & Hc & Hid & Hcc).
  pose proof (current_citations_ge (citations_table db) (row_id paper)
                (horizon_max now horizon history)) as Hge.
  cbv zeta in Hge.
  assert (Hpos : 0 < horizon_max now horizon history) by lia.
  specialize (Hge (ex_intro _ c (conj Hc (conj Hid (eq_trans Hcc Hcount)))) Hpos).
  lia.
Qed.

(** C5. [get_paper_stats] raises the not-found error exactly for the
    identifiers that are the DOI of no stored paper and the arXiv ID of
    no stored paper; for an identifier that matches a paper it returns
    the statistics. *)
Theorem C5_paper_stats_not_found db identifier now :
  ((∀ row, row ∈ papers_table db →
      row_doi row ≠ Some identifier ∧ row_arxiv_id row ≠ Some identifier) →
   get_paper_stats db identifier now = Raise (PaperNotFound identifier))
  ∧ ((∃ row, row ∈ papers_table db
        ∧ (row_doi row = Some identifier ∨ row_arxiv_id row = Some identifier)) →
     ∃ stats, get_paper_stats db identifier now = Ok stats).
Proof.
  split.
  - intros Hno.
    assert (Hnone : fetchone (List.filter (row_matches identifier) (papers_table db)) = None).
    { apply fetchone_filter_None. intros row Hin.
      destruct (row_matches identifier row) eqn:E; [|done].
      apply row_matches_true in E. destruct (Hno row Hin). tauto. }
    unfold get_paper_stats. by rewrite Hnone.
  - intros (row & Hin & Hmatch).
    destruct (fetchone (List.filter (row_matches identifier) (papers_table db)))
      as [paper|] eqn:Hfetch.
    + destruct (get_paper_stats_found db identifier now paper Hfetch) as (stats & ? & _).
      eauto.
    + rewrite fetchone_filter_None in Hfetch.
      apply row_matches_true in Hmatch. rewrite (Hfetch row Hin) in Hmatch. done.
Qed.

Lemma C5_witness :
  get_paper_stats db_two_platforms "10.1000/y" (20 * day)
  = Raise (PaperNotFound "10.1000/y")
  ∧ ∃ stats, get_paper_stats db_two_platforms "10.1000/x" (20 * day) = Ok stats.
Proof.
  split.
  - apply (C5_paper_stats_not_found db_two_platforms "10.1000/y" (20 * day)).
    intros row Hin. simpl in Hin. apply list_elem_of_singleton in Hin as ->.
    simpl. split; discriminate.
  - apply (C5_paper_stats_not_found db_two_platforms "10.1000/x" (20 * day)).
    eexists. split; [apply list_elem_of_here|]. left. reflexivity.
Defined.




Lemma fetchone_filter_elem {A} (f : A → bool) (rows : list A) x :
  fetchone (List.filter f rows) = Some x → x ∈ rows ∧ f x = true.
Proof.
  unfold fetchone. intros Hx.
  assert (Hin : x ∈ List.filter f rows).
  { destruct (List.filter f rows); simplify_eq/=. apply list_elem_of_here. }
  apply list_elem_of_In, List.filter_In in Hin as [Hin Hf].
  split; [by apply list_elem_of_In|done].
Qed.




(** ** Citation trends *)

Lemma py_sum_acc (l : list Z) (a : Z) : foldl Z.add a l = a + py_sum l.
Proof.
  unfold py_sum. revert a. induction l as [|x l IH]; intros a; simpl; [lia|].
  rewrite (IH (a + x)), (IH (0 + x)). lia.
Qed.

Lemma py_sum_cons (x : Z) (l : list Z) : py_sum (x :: l) = x + py_sum l.
Proof. unfold py_sum at 1. simpl. apply py_sum_acc. Qed.

Lemma truthy_year_Some p y : truthy_year p = Some y ↔ year p = Val y ∧ y ≠ 0.
Proof.
  unfold truthy_year. destruct (year p) as [| |y']; simpl; try (split; [done|by intros []]).
  destruct (y' =? 0) eqn:E; split; try done.
  - intros [[= ->] ?]. lia.
  - intros [= ->]. split; [done|lia].
  - by intros [[= ->] ?].
Qed.

Lemma truthy_year_None p : truthy_year p = None ↔ no_year p = true.
Proof.
  unfold truthy_year, no_year. destruct (year p) as [| |y]; simpl; try done.
  destruct (y =? 0); split; done.
Qed.

Lemma trends_step_dated (m : gmap Z YearBucket) p y :
  truthy_year p = Some y →
  trends_step m p = <[y := count_in (m !! y) (citations p)]> m.
Proof.
  intros Hy. unfold trends_step. rewrite Hy.
  destruct (m !! y) as [b|] eqn:Hm.
  - apply map_eq. intros y'. destruct (decide (y = y')) as [<-|Hne].
    + rewrite !lookup_alter_eq, Hm, lookup_insert_eq. done.
    + rewrite !lookup_alter_ne, lookup_insert_ne by done. done.
  - rewrite !alter_insert_eq. done.
Qed.

Lemma trends_step_undated (m : gmap Z YearBucket) p :
  truthy_year p = None → trends_step m p = m.
Proof. intros Hy. unfold trends_step. by rewrite Hy. Qed.

(** What the grouping loop leaves in the bucket of year [y]. *)
Lemma trends_loop_lookup papers (m : gmap Z YearBucket) y :
  y ≠ 0 →
  foldl trends_step m papers !! y
  = match published_in y papers with
    | [] => m !! y
    | ps =>
        Some {| bucket_papers := bucket_papers (default (mkYearBucket 0 0) (m !! y)) + len ps;
                bucket_citations :=
                  bucket_citations (default (mkYearBucket 0 0) (m !! y))
                  + py_sum (citations <$> ps) |}
    end.
Proof.
  intros Hy0. revert m. induction papers as [|p papers IH]; intros m; [done|].
  cbn [foldl]. rewrite IH. unfold published_in. cbn [List.filter].
  fold (published_in y papers).
  destruct (truthy_year p) as [y'|] eqn:Hp.
  - rewrite (trends_step_dated m p y' Hp).
    apply truthy_year_Some in Hp as [Hp Hy'].
    destruct (decide (y' = y)) as [->|Hne].
    + rewrite bool_decide_eq_true_2 by done. rewrite lookup_insert_eq.
      destruct (published_in y papers) as [|q ps]; simpl.
      * unfold count_in, len, py_sum. simpl. do 2 f_equal; lia.
      * unfold count_in, len. cbn [length fmap list_fmap default].
        rewrite !py_sum_cons. simpl. do 2 f_equal; lia.
    + rewrite bool_decide_eq_false_2 by congruence.
      rewrite lookup_insert_ne by done. done.
  - rewrite (trends_step_undated m p Hp).
    rewrite bool_decide_eq_false_2; [done|].
    intros Hv. apply truthy_year_None in Hp. unfold no_year in Hp.
    rewrite Hv in Hp. lia.
Qed.

Lemma trends_loop_lookup_0 papers (m : gmap Z YearBucket) :
  foldl trends_step m papers !! 0 = m !! 0.
Proof.
  revert m. induction papers as [|p papers IH]; intros m; [done|].
  cbn [foldl]. rewrite IH.
  destruct (truthy_year p) as [y'|] eqn:Hp.
  - rewrite (trends_step_dated m p y' Hp).
    apply truthy_year_Some in Hp as [_ Hy']. by rewrite lookup_insert_ne.
  - by rewrite (trends_step_undated m p Hp).
Qed.

(** C7. [get_citation_trends] groups the papers by publication year: the
    bucket of a year holds the number of papers published that year and
    the sum of their citations (and there is no bucket for a year without
    paper, nor for year 0); on the three papers of the specification the
    buckets are [{papers: 2, citations: 8}] for 2020 and
    [{papers: 1, citations: 1}] for 2021. *)
Theorem C7_citation_trends_groups_by_year db :
  let papers := get_papers_with_latest_citations db in
  by_year (get_citation_trends db) !! 0 = None
  ∧ (∀ y, y ≠ 0 →
       by_year (get_citation_trends db) !! y
       = match published_in y papers with
         | [] => None
         | ps => Some {| bucket_papers := len ps;
                         bucket_citations := py_sum (citations <$> ps) |}
         end)
  ∧ let example :=
      get_citation_trends (db_of_papers [paper_2020_5; paper_2020_3; paper_2021_1]) in
    by_year example !! 2020 = Some {| bucket_papers := 2; bucket_citations := 8 |}
    ∧ by_year example !! 2021 = Some {| bucket_papers := 1; bucket_citations := 1 |}.
Proof.
  intros papers. split; [|split].
  - unfold get_citation_trends. simpl. by rewrite trends_loop_lookup_0.
  - intros y Hy. unfold get_citation_trends. simpl. fold papers.
    rewrite (trends_loop_lookup papers ∅ y Hy), lookup_empty. simpl.
    destruct (published_in y papers); [done|]. do 2 f_equal; lia.
  - split; vm_compute; reflexivity.
Qed.

Lemma C7_witness :
  by_year (get_citation_trends (db_of_papers [paper_2020_5; paper_2020_3; paper_2021_1]))
    !! 2020
  = Some {| bucket_papers := len [paper_2020_5; paper_2020_3];
            bucket_citations := py_sum [5; 3] |}.
Proof.
  pose proof (C7_citation_trends_groups_by_year
                (db_of_papers [paper_2020_5; paper_2020_3; paper_2021_1]))
    as (_ & H & _).
  apply (H 2020). lia.
Defined.

(** Overwriting one bucket changes the sum of a field over the buckets
    by the difference between the new and the old value. *)
Lemma bucket_sum_insert (f : YearBucket → Z) (m : gmap Z YearBucket) y b :
  map_fold (λ _ b acc, f b + acc) 0 (<[y := b]> m)
  = f b + map_fold (λ _ b acc, f b + acc) 0 m
    - match m !! y with Some b0 => f b0 | None => 0 end.
Proof.
  assert (Hins : ∀ (m' : gmap Z YearBucket) b', m' !! y = None →
            map_fold (λ _ b acc, f b + acc) 0 (<[y := b']> m')
            = f b' + map_fold (λ _ b acc, f b + acc) 0 m').
  { intros m' b' Hnone. apply (map_fold_insert_L (λ _ b acc, f b + acc)); [|done].
    intros. lia. }
  destruct (m !! y) as [b0|] eqn:Hm.
  - rewrite <- (insert_delete_eq m y b).
    rewrite <- (insert_delete_id m y b0 Hm) at 2.
    rewrite !Hins by apply lookup_delete_eq. lia.
  - rewrite Hins by done. lia.
Qed.

Lemma trends_step_sums (m : gmap Z YearBucket) p :
  bucket_papers_sum (trends_step m p)
  = bucket_papers_sum m + (if no_year p then 0 else 1)
  ∧ bucket_citations_sum (trends_step m p)
    = bucket_citations_sum m + (if no_year p then 0 else citations p).
Proof.
  destruct (truthy_year p) as [y|] eqn:Hp.
  - rewrite (trends_step_dated m p y Hp).
    assert (Hn : no_year p = false).
    { destruct (no_year p) eqn:E; [|done].
      apply truthy_year_None in E. congruence. }
    rewrite Hn. unfold bucket_papers_sum, bucket_citations_sum.
    rewrite (bucket_sum_insert bucket_papers), (bucket_sum_insert bucket_citations).
    unfold count_in. destruct (m !! y); simpl; lia.
  - rewrite (trends_step_undated m p Hp).
    apply truthy_year_None in Hp. rewrite Hp. lia.
Qed.

Lemma trends_loop_sums papers (m : gmap Z YearBucket) :
  bucket_papers_sum (foldl trends_step m papers) + len (undated papers)
  = bucket_papers_sum m + len papers
  ∧ bucket_citations_sum (foldl trends_step m papers)
    + py_sum (citations <$> undated papers)
    = bucket_citations_sum m + py_sum (citations <$> papers).
Proof.
  revert m. induction papers as [|p papers IH]; intros m.
  - simpl. unfold len, py_sum. simpl. lia.
  - cbn [foldl]. destruct (IH (trends_step m p)) as [IHp IHc].
    destruct (trends_step_sums m p) as [Hp Hc].
    unfold undated in *. cbn [List.filter].
    rewrite fmap_cons, py_sum_cons.
    destruct (no_year p); unfold len in *; cbn [length fmap list_fmap];
      rewrite ?py_sum_cons; lia.
Qed.

Lemma py_sum_nonneg (ps : list Paper) :
  Forall (λ p, 0 ≤ citations p) ps → 0 ≤ py_sum (citations <$> ps).
Proof.
  induction 1 as [|p ps Hp _ IH]; [done|].
  rewrite fmap_cons, py_sum_cons. lia.
Qed.

Lemma py_sum_pos (ps : list Paper) :
  Forall (λ p, 0 ≤ citations p) ps → Exists (λ p, 0 < citations p) ps →
  0 < py_sum (citations <$> ps).
Proof.
  intros Hall Hex. induction Hex as [p ps Hp|p ps Hex IH];
    apply Forall_cons in Hall as [H0 Hall];
    rewrite fmap_cons, py_sum_cons.
  - pose proof (py_sum_nonneg ps Hall). lia.
  - specialize (IH Hall). lia.
Qed.

(** C10 (as the code has it). [get_citation_trends] counts a paper whose
    year is missing, [None] or 0 in [total_papers] and [total_citations]
    but in no bucket: the totals are the sums over the buckets plus the
    number, respectively the citations, of those papers.  When none of
    those papers has a negative citation count, the citations of the
    buckets sum to at most [total_citations], and to strictly less when
    one of them has a positive count. *)
Theorem C10_undated_papers_only_in_totals db :
  let papers := get_papers_with_latest_citations db in
  let trends := get_citation_trends db in
  trends_total_papers trends = len papers
  ∧ trends_total_citations trends = py_sum (citations <$> papers)
  ∧ trends_total_papers trends
    = bucket_papers_sum (by_year trends) + len (undated papers)
  ∧ trends_total_citations trends
    = bucket_citations_sum (by_year trends) + py_sum (citations <$> undated papers)
  ∧ (Forall (λ p, 0 ≤ citations p) (undated papers) →
     bucket_citations_sum (by_year trends) ≤ trends_total_citations trends)
  ∧ (Forall (λ p, 0 ≤ citations p) (undated papers) →
     Exists (λ p, 0 < citations p) (undated papers) →
     bucket_citations_sum (by_year trends) < trends_total_citations trends).
Proof.
  intros papers trends. unfold trends, get_citation_trends. simpl. fold papers.
  destruct (trends_loop_sums papers ∅) as [Hp Hc].
  assert (Hp0 : bucket_papers_sum ∅ = 0) by apply map_fold_empty.
  assert (Hc0 : bucket_citations_sum ∅ = 0) by apply map_fold_empty.
  split; [done|]. split; [done|]. split; [lia|]. split; [lia|]. split.
  - intros Hall. pose proof (py_sum_nonneg _ Hall). lia.
  - intros Hall Hex. pose proof (py_sum_pos _ Hall Hex). lia.
Qed.

Lemma C10_witness :
  let trends := get_citation_trends (db_of_papers [paper_2020_5; mkPaper "U" 4 Null Null Null]) in
  bucket_citations_sum (by_year trends) < trends_total_citations trends.
Proof.
  apply (C10_undated_papers_only_in_totals
           (db_of_papers [paper_2020_5; mkPaper "U" 4 Null Null Null])).
  - simpl. repeat constructor. simpl. lia.
  - simpl. constructor. simpl. lia.
Defined.

(** C10, as stated, fails when an undated paper holds a negative count:
    the buckets then sum to 0, above the total of -1. *)
Lemma C10_counterexample :
  let trends := get_citation_trends (db_of_papers [paper_undated_negative]) in
  ¬ (bucket_citations_sum (by_year trends) ≤ trends_total_citations trends).
Proof. vm_compute. intros H. apply H. reflexivity. Qed.

(** ** Low-visibility papers *)

Lemma inject_Z_nonneg z : 0 ≤ z → (0 <= inject_Z z)%Q.
Proof. intros Hz. unfold Qle. simpl. lia. Qed.

Lemma Qle_bool_total a b : Qle_bool a b = true ∨ Qle_bool b a = true.
Proof.
  rewrite !Qle_bool_iff. destruct (Qlt_le_dec a b) as [Hlt|Hle]; [left|by right].
  by apply Qlt_le_weak.
Qed.

Lemma Qle_bool_trans a b c :
  Qle_bool a b = true → Qle_bool b c = true → Qle_bool a c = true.
Proof. rewrite !Qle_bool_iff. apply Qle_trans. Qed.

Lemma estimate_potential_nonneg now_year p score :
  _estimate_potential now_year p = Ok score → (0 <= score)%Q.
Proof.
  unfold _estimate_potential.
  destruct (venue p) as [| |v]; simpl; [|done|]; intros [= <-].
  all: destruct (truthy_year p) as [y|].
  all: repeat match goal with
       | |- context [if ?b then _ else _] => destruct b eqn:?
       end.
  all: repeat match goal with
       | H : (?a <? ?b) = true |- _ => apply Z.ltb_lt in H
       end.
  all: try (assert (0 <= inject_Z (3 - (now_year - y)))%Q by (apply inject_Z_nonneg; lia)).
  all: try (assert (0 <= inject_Z (Z.min (citations p) 10))%Q by (apply inject_Z_nonneg; lia)).
  all: repeat match goal with
       | H : (0 <= inject_Z ?z)%Q |- _ => revert H; generalize (inject_Z z); intros ? ?
       end.
  all: lra.
Qed.

Lemma estimate_potential_total now_year p :
  venue p ≠ Null → ∃ score, _estimate_potential now_year p = Ok score.
Proof.
  intros Hv. unfold _estimate_potential.
  destruct (venue p); simpl; [eauto|done|eauto].
Qed.

Lemma low_visibility_loop_flagged threshold now_year papers0 papers acc out :
  (∀ p, p ∈ papers → p ∈ papers0) →
  Forall (flagged_from threshold now_year papers0) acc →
  low_visibility_loop threshold now_year papers acc = Ok out →
  Forall (flagged_from threshold now_year papers0) out.
Proof.
  revert acc. induction papers as [|p papers IH]; intros acc Hsub Hacc Hout.
  - simpl in Hout. by simplify_eq.
  - assert (Hsub' : ∀ q, q ∈ papers → q ∈ papers0).
    { intros q Hq. apply Hsub. by apply list_elem_of_further. }
    cbn [low_visibility_loop] in Hout.
    destruct (truthy_year p) as [y|] eqn:Hy; [|by eapply IH].
    destruct ((1 <=? now_year - y) && (citations p <? threshold)) eqn:Hflag;
      [|by eapply IH].
    destruct (_estimate_potential now_year p) as [score|] eqn:Hscore; [|done].
    simpl in Hout. eapply IH; [done| |exact Hout].
    apply Forall_app. split; [done|]. apply Forall_singleton.
    apply andb_prop in Hflag as [Hage Hcit].
    apply truthy_year_Some in Hy as [Hy _].
    exists p. simpl. split; [apply Hsub, list_elem_of_here|].
    repeat split; try done; lia.
Qed.

Lemma low_visibility_loop_total threshold now_year papers acc :
  Forall (λ p, venue p ≠ Null) papers →
  ∃ out, low_visibility_loop threshold now_year papers acc = Ok out.
Proof.
  intros Hv. revert acc. induction Hv as [|p papers Hp _ IH]; intros acc; simpl; [eauto|].
  destruct (truthy_year p) as [y|]; [|done].
  destruct ((1 <=? now_year - y) && (citations p <? threshold)); [|done].
  destruct (estimate_potential_total now_year p Hp) as [score ->]. simpl. done.
Qed.

(** C6. Every entry returned by [identify_low_visibility_papers] comes
    from a paper that is at least one (calendar) year old and has fewer
    citations than the threshold, so no paper younger than that is
    returned whatever its citation count; every potential is
    non-negative; the result is sorted non-increasing by potential.  The
    operation returns whenever no paper holds [None] as venue. *)
Theorem C6_low_visibility_entries db threshold now_year :
  let papers := get_papers_with_latest_citations db in
  (Forall (λ p, venue p ≠ Null) papers →
   ∃ out, identify_low_visibility_papers db threshold now_year = Ok out)
  ∧ ∀ out, identify_low_visibility_papers db threshold now_year = Ok out →
      Forall (λ e, flagged_from threshold now_year papers e ∧ (0 <= potential e)%Q) out
      ∧ StronglySorted (λ a b, (potential b <= potential a)%Q) out.
Proof.
  intros papers. unfold identify_low_visibility_papers. fold papers. split.
  - intros Hv.
    destruct (low_visibility_loop_total threshold now_year papers [] Hv) as [lv ->].
    simpl. eauto.
  - intros out.
    destruct (low_visibility_loop threshold now_year papers []) as [lv|] eqn:Hloop;
      simpl; [|done].
    intros [= <-]. split.
    + rewrite py_sorted_rev_perm.
      apply low_visibility_loop_flagged with (papers0 := papers) in Hloop; [|done|constructor].
      eapply Forall_impl; [exact Hloop|]. intros e He. split; [done|].
      destruct He as (p & _ & _ & _ & _ & _ & _ & _ & _ & Hscore).
      by eapply estimate_potential_nonneg.
    + eapply StronglySorted_mono;
        [|apply py_sorted_rev_sorted; [apply Qle_bool_total|apply Qle_bool_trans]].
      intros a b. unfold desc. by rewrite Qle_bool_iff.
Qed.

Lemma C6_witness :
  ∃ out,
    identify_low_visibility_papers
      (db_of_papers [paper_2020_5; paper_2020_3; paper_2021_1]) 5 2026 = Ok out
    ∧ Forall (λ e, flagged_from 5 2026 [paper_2020_5; paper_2020_3; paper_2021_1] e
                   ∧ (0 <= potential e)%Q) out
    ∧ StronglySorted (λ a b, (potential b <= potential a)%Q) out.
Proof.
  pose proof (C6_low_visibility_entries
                (db_of_papers [paper_2020_5; paper_2020_3; paper_2021_1]) 5 2026) as [H1 H2].
  destruct H1 as [out Hout].
  { simpl. repeat constructor; discriminate. }
  exists out. split; [exact Hout|]. exact (H2 out Hout).
Defined.

(** C3 fails on the code. A paper whose venue is [None] (as stored for a
    preprint) makes the potential-score helper, and with it
    [identify_low_visibility_papers], raise an attribute error instead of
    treating the venue as empty; a paper without the [venue] key is
    scored with the empty venue. *)
Theorem C3_null_venue_raises :
  _estimate_potential 2026 paper_null_venue = Raise (AttributeError "lower")
  ∧ identify_low_visibility_papers (db_of_papers [paper_null_venue]) 5 2026
    = Raise (AttributeError "lower")
  ∧ ∃ out, identify_low_visibility_papers (db_of_papers [paper_2020_3]) 5 2026 = Ok out.
Proof. split; [reflexivity|]. split; [reflexivity|]. eexists. reflexivity. Qed.

(** * Further properties *)

(** ** The h-index as a count *)

Lemma filter_all {A} (P : A → Prop) `{∀ x, Decision (P x)} (l : list A) :
  Forall P l → filter P l = l.
Proof.
  induction 1 as [|x l Hx _ IH]; [done|].
  rewrite filter_cons_True by done. by rewrite IH.
Qed.

Lemma filter_none {A} (P : A → Prop) `{∀ x, Decision (P x)} (l : list A) :
  Forall (λ x, ¬ P x) l → filter P l = [].
Proof.
  induction 1 as [|x l Hx _ IH]; [done|].
  by rewrite filter_cons_False.
Qed.

Lemma count_ge_perm k (l l' : list Z) : l ≡ₚ l' → count_ge k l = count_ge k l'.
Proof. intros Hp. unfold count_ge, len. by rewrite Hp. Qed.

Lemma count_ge_cons k c (l : list Z) :
  count_ge k (c :: l) = count_ge k l + (if decide (k ≤ c) then 1 else 0).
Proof.
  unfold count_ge, len. rewrite filter_cons. case_decide; simpl; lia.
Qed.

Lemma count_ge_nonneg k (l : list Z) : 0 ≤ count_ge k l.
Proof. unfold count_ge, len. lia. Qed.

Lemma count_ge_antitone k k' (l : list Z) : k ≤ k' → count_ge k' l ≤ count_ge k l.
Proof.
  intros Hk. induction l as [|c l IH]; [done|].
  rewrite !count_ge_cons. repeat case_decide; lia.
Qed.

Lemma count_ge_mono k (l l' : list Z) :
  Forall2 Z.le l l' → count_ge k l ≤ count_ge k l'.
Proof.
  induction 1 as [|c c' l l' Hc _ IH]; [done|].
  rewrite !count_ge_cons. repeat case_decide; lia.
Qed.

(** In a descending list, a value below [k] at index [n] leaves at most
    [n] values that reach [k]. *)
Lemma count_ge_sorted_le (s : list Z) k (n : nat) :
  StronglySorted (flip Z.le) s →
  (∀ c, s !! n = Some c → c < k) → count_ge k s ≤ Z.of_nat n.
Proof.
  intros Hs Hn. unfold count_ge, len.
  rewrite <- (take_drop n s), filter_app, length_app.
  rewrite (filter_none _ (drop n s)).
  - pose proof (length_filter (λ c, k ≤ c) (take n s)).
    pose proof (length_take_le s n). simpl. rewrite length_take in *. lia.
  - apply Forall_lookup. intros i x Hx. rewrite lookup_drop in Hx.
    destruct (s !! n) as [c|] eqn:Hc.
    + pose proof (sorted_desc_lookup s n (n + i) c x Hs ltac:(lia) Hc Hx).
      specialize (Hn c eq_refl). lia.
    + apply lookup_ge_None in Hc. apply lookup_lt_Some in Hx. lia.
Qed.

Lemma count_ge_first_ge (s : list Z) k (n : nat) :
  (n ≤ length s)%nat →
  (∀ j c, (j < n)%nat → s !! j = Some c → k ≤ c) → Z.of_nat n ≤ count_ge k s.
Proof.
  intros Hlen Hn. unfold count_ge, len.
  rewrite <- (take_drop n s), filter_app, length_app.
  rewrite (filter_all _ (take n s)).
  - rewrite length_take. lia.
  - apply Forall_lookup. intros j c Hc.
    pose proof (lookup_lt_Some _ _ _ Hc) as Hj. rewrite length_take in Hj.
    rewrite lookup_take_lt in Hc by lia. apply (Hn j c); [lia|done].
Qed.

(** [k] papers have at least [k] citations exactly when [k] is at most
    the computed h-index. *)
Lemma calculate_h_index_counting (counts : list Z) k :
  k ≤ count_ge k counts ↔ k ≤ calculate_h_index counts.
Proof.
  rewrite calculate_h_index_sorted.
  rewrite <- (count_ge_perm k _ _ (py_sorted_rev_perm Z.leb id counts)).
  pose proof (py_sorted_rev_Z_sorted counts) as Hs.
  set (s := py_sorted_rev Z.leb id counts) in *.
  pose proof (h_index_loop_bounds s 1 0 eq_refl) as Hb. unfold len in Hb.
  set (h := h_index_loop 1 0 s) in *.
  split.
  - intros Hk. destruct (decide (k ≤ h)) as [|Hn]; [done|exfalso].
    assert (count_ge k s ≤ Z.of_nat (Z.to_nat h)); [|lia].
    apply count_ge_sorted_le; [done|]. intros c Hc.
    pose proof (h_index_loop_stopped s 1 0 c eq_refl) as Hstop. fold h in Hstop.
    rewrite Z.sub_0_r in Hstop. specialize (Hstop Hc). lia.
  - intros Hk. destruct (decide (k ≤ 0)) as [|Hpos].
    { pose proof (count_ge_nonneg k s). lia. }
    assert (Z.of_nat (Z.to_nat h) ≤ count_ge k s); [|lia].
    apply count_ge_first_ge; [lia|]. intros j c Hj Hc.
    assert (Hlast : (Z.to_nat (h - 1) < length s)%nat) by lia.
    apply lookup_lt_is_Some_2 in Hlast as [c' Hc'].
    pose proof (h_index_loop_passed s 1 0 (Z.to_nat (h - 1)) c' eq_refl Hc') as Hpass.
    fold h in Hpass.
    pose proof (sorted_desc_lookup s j (Z.to_nat (h - 1)) c c' Hs ltac:(lia) Hc Hc').
    lia.
Qed.

(** X1. The result of [calculate_h_index] is the h-index of the glossary:
    for every [k], at least [k] of the counts are at least [k] exactly
    when [k] is at most the result.  So the result is the largest [h]
    such that [h] papers have at least [h] citations each. *)
Theorem X1_h_index_counts_papers (counts : list Z) (k : Z) :
  (k ≤ count_ge k counts ↔ k ≤ calculate_h_index counts)
  ∧ calculate_h_index counts ≤ count_ge (calculate_h_index counts) counts
  ∧ count_ge (calculate_h_index counts + 1) counts < calculate_h_index counts + 1.
Proof.
  split; [apply calculate_h_index_counting|]. split.
  - by apply calculate_h_index_counting.
  - destruct (decide (count_ge (calculate_h_index counts + 1) counts
                      < calculate_h_index counts + 1)) as [|Hn]; [done|].
    assert (calculate_h_index counts + 1 ≤ calculate_h_index counts); [|lia].
    apply calculate_h_index_counting. lia.
Qed.

(** X2. Adding one paper never lowers the h-index and raises it by at
    most one. *)
Theorem X2_h_index_add_paper (counts : list Z) (c : Z) :
  calculate_h_index counts ≤ calculate_h_index (c :: counts)
  ≤ calculate_h_index counts + 1.
Proof.
  set (h := calculate_h_index counts). set (h' := calculate_h_index (c :: counts)).
  split.
  - apply calculate_h_index_counting. rewrite count_ge_cons.
    assert (h ≤ count_ge h counts) by by apply calculate_h_index_counting.
    case_decide; lia.
  - destruct (decide (h' ≤ h + 1)) as [|Hn]; [done|exfalso].
    assert (Hh' : h' ≤ count_ge h' (c :: counts)) by by apply calculate_h_index_counting.
    rewrite count_ge_cons in Hh'.
    pose proof (count_ge_antitone (h' - 1) h' counts ltac:(lia)).
    assert (h' - 1 ≤ h); [|lia].
    apply calculate_h_index_counting. case_decide; lia.
Qed.

(** X3. Raising citation counts position by position never lowers the
    h-index. *)
Theorem X3_h_index_monotone (counts counts' : list Z) :
  Forall2 Z.le counts counts' →
  calculate_h_index counts ≤ calculate_h_index counts'.
Proof.
  intros Hle. apply calculate_h_index_counting.
  pose proof (count_ge_mono (calculate_h_index counts) _ _ Hle).
  assert (calculate_h_index counts ≤ count_ge (calculate_h_index counts) counts)
    by by apply calculate_h_index_counting.
  lia.
Qed.

Lemma X3_witness : calculate_h_index [1; 2; 3] ≤ calculate_h_index [3; 2; 4].
Proof.
  apply (X3_h_index_monotone [1; 2; 3] [3; 2; 4]).
  repeat constructor; lia.
Defined.

(** ** Summary statistics, further *)

Lemma py_sum_perm (l l' : list Z) : l ≡ₚ l' → py_sum l = py_sum l'.
Proof.
  induction 1 as [|x l l' _ IH|x y l|l l' l'' _ IH1 _ IH2].
  - done.
  - rewrite !py_sum_cons. lia.
  - rewrite !py_sum_cons. lia.
  - congruence.
Qed.

(** Counts that reach [k] contribute at least [k] each to the sum of
    non-negative counts. *)
Lemma py_sum_ge_count (l : list Z) k :
  Forall (λ c, 0 ≤ c) l → 0 ≤ k → k * count_ge k l ≤ py_sum l.
Proof.
  intros Hl Hk. induction Hl as [|c l Hc _ IH].
  - unfold count_ge, len, py_sum. simpl. lia.
  - rewrite count_ge_cons, py_sum_cons. case_decide; nia.
Qed.

(** X4. In the summary, the h-index lies between 0 and the number of
    papers, and when no citation count is negative its square is at most
    the total number of citations. *)
Theorem X4_summary_h_index_bounds db period stats :
  get_summary_stats db period = Ok stats →
  0 ≤ h_index stats ≤ total_papers stats
  ∧ (Forall (λ p, 0 ≤ citations p) (get_papers_with_latest_citations db) →
     h_index stats * h_index stats ≤ total_citations stats).
Proof.
  unfold get_summary_stats.
  set (papers := get_papers_with_latest_citations db).
  destruct (if 0 <? len papers then _ else _) as [avg|]; simpl; [|done].
  intros [= <-]. simpl. split.
  - pose proof (calculate_h_index_bounds (citations <$> papers)) as Hb.
    unfold len in *. rewrite length_fmap in Hb. done.
  - intros Hall.
    set (counts := citations <$> papers).
    pose proof (calculate_h_index_bounds counts) as Hb.
    assert (Hc : calculate_h_index counts ≤ count_ge (calculate_h_index counts) counts)
      by by apply calculate_h_index_counting.
    assert (Hs : calculate_h_index counts * count_ge (calculate_h_index counts) counts
                 ≤ py_sum counts).
    { apply py_sum_ge_count; [|lia]. unfold counts. by apply Forall_fmap. }
    nia.
Qed.

Lemma X4_witness :
  ∃ stats,
    get_summary_stats (db_of_papers [paper_2020_5; paper_2020_3; paper_2021_1]) "all"
    = Ok stats
    ∧ 0 ≤ h_index stats ≤ total_papers stats
    ∧ h_index stats * h_index stats ≤ total_citations stats.
Proof.
  eexists. split; [reflexivity|].
  destruct (X4_summary_h_index_bounds
              (db_of_papers [paper_2020_5; paper_2020_3; paper_2021_1]) "all" _ eq_refl)
    as [Hb Hsq].
  split; [exact Hb|]. apply Hsq. simpl. repeat constructor; simpl; lia.
Defined.

(** Rounding to the nearest integer misses the quotient by at most a
    half. *)
Lemma round_half_even_error n d :
  0 < d → 2 * Z.abs (round_half_even n d * d - n) ≤ d.
Proof.
  intros Hd. unfold round_half_even.
  pose proof (Z.div_mod n d ltac:(lia)) as Hdiv.
  pose proof (Z.mod_pos_bound n d Hd) as Hmod.
  set (q := n / d) in *. set (r := n mod d) in *.
  destruct (2 * r <? d) eqn:E1; [nia|].
  destruct (d <? 2 * r) eqn:E2; [nia|].
  destruct (Z.even q); nia.
Qed.

Lemma binary_exponent_reaches n d :
  0 < n → 0 < d → reaches_pow2 n d (binary_exponent n d) = true.
Proof.
  intros Hn Hd. unfold binary_exponent.
  destruct (reaches_pow2 n d (Z.log2 n - Z.log2 d)) eqn:E; [done|]. clear E.
  pose proof (Z.log2_spec n Hn) as [Hn1 _].
  pose proof (Z.log2_spec d Hd) as [_ Hd2].
  pose proof (Z.log2_nonneg n). pose proof (Z.log2_nonneg d).
  set (ln := Z.log2 n) in *. set (ld := Z.log2 d) in *.
  unfold reaches_pow2. apply Z.leb_le.
  destruct (decide (1 ≤ ln - ld)) as [Hge|Hlt].
  - rewrite (Z.max_r 0 (ln - ld - 1)), (Z.max_l 0 (- (ln - ld - 1))) by lia.
    assert (Hpow : 2 ^ Z.succ ld * 2 ^ (ln - ld - 1) = 2 ^ ln).
    { rewrite <- Z.pow_add_r by lia. f_equal. lia. }
    pose proof (Z.pow_pos_nonneg 2 (ln - ld - 1) ltac:(lia) ltac:(lia)).
    change (2 ^ 0) with 1. nia.
  - rewrite (Z.max_l 0 (ln - ld - 1)), (Z.max_r 0 (- (ln - ld - 1))) by lia.
    assert (Hpow : 2 ^ ln * 2 ^ (- (ln - ld - 1)) = 2 ^ Z.succ ld).
    { rewrite <- Z.pow_add_r by lia. f_equal. lia. }
    pose proof (Z.pow_pos_nonneg 2 (- (ln - ld - 1)) ltac:(lia) ltac:(lia)).
    change (2 ^ 0) with 1. nia.
Qed.

(** With 53 bits below the leading one, the scaled quotient is at least
    [2 ^ 52] unless the exponent is held at [-1074]. *)
Lemma scaled_quotient_large n d e :
  0 < n → 0 < d → reaches_pow2 n d e = true → - 1074 < e - 52 →
  d * 2 ^ Z.max 0 (e - 52) * 2 ^ 52 ≤ n * 2 ^ Z.max 0 (- (e - 52)).
Proof.
  intros Hn Hd Hr _. unfold reaches_pow2 in Hr. apply Z.leb_le in Hr.
  destruct (decide (52 ≤ e)) as [H52|H52].
  - rewrite (Z.max_r 0 (e - 52)), (Z.max_l 0 (- (e - 52))) by lia.
    rewrite (Z.max_r 0 e), (Z.max_l 0 (- e)) in Hr by lia.
    assert (Hpow : 2 ^ (e - 52) * 2 ^ 52 = 2 ^ e).
    { rewrite <- Z.pow_add_r by lia. f_equal. lia. }
    change (2 ^ 0) with 1 in *. rewrite <- Z.mul_assoc, Hpow. lia.
  - rewrite (Z.max_l 0 (e - 52)), (Z.max_r 0 (- (e - 52))) by lia.
    change (2 ^ 0) with 1. rewrite Z.mul_1_r.
    destruct (decide (0 ≤ e)) as [H0|H0].
    + rewrite (Z.max_r 0 e), (Z.max_l 0 (- e)) in Hr by lia.
      change (2 ^ 0) with 1 in Hr.
      assert (Hpow : 2 ^ e * 2 ^ (- (e - 52)) = 2 ^ 52).
      { rewrite <- Z.pow_add_r by lia. f_equal. lia. }
      pose proof (Z.pow_pos_nonneg 2 (- (e - 52)) ltac:(lia) ltac:(lia)).
      rewrite <- Hpow. nia.
    + rewrite (Z.max_l 0 e), (Z.max_r 0 (- e)) in Hr by lia.
      change (2 ^ 0) with 1 in Hr.
      assert (Hpow : 2 ^ (- e) * 2 ^ 52 = 2 ^ (- (e - 52))).
      { rewrite <- Z.pow_add_r by lia. f_equal. lia. }
      rewrite <- Hpow. nia.
Qed.

(** The double nearest to [a / b], times [b], misses [a] by at most the
    relative error [2 ^ -53], or by [b * 2 ^ -1075] near zero. *)
Lemma nearest_double_error a b v :
  0 < b → nearest_double a b = Some v →
  ∃ num A, v = Qmake num (Z.to_pos A) ∧ 0 < A
    ∧ Z.abs (num * b - a * A) * 2 ^ 1075 ≤ Z.abs a * A * 2 ^ 1022 + b * A.
Proof.
  intros Hb. unfold nearest_double. destruct (a =? 0) eqn:Ea.
  { intros [= <-]. exists 0, 1. split; [done|]. split; [done|].
    apply Z.eqb_eq in Ea. subst a. simpl Z.abs. lia. }
  apply Z.eqb_neq in Ea.
  rewrite (Z.abs_eq b) by lia.
  set (n := Z.abs a). assert (Hn : 0 < n) by (unfold n; lia).
  pose proof (binary_exponent_reaches n b Hn Hb) as Hreach.
  set (e := binary_exponent n b) in *.
  set (p := Z.max (e - 52) (- 1074)).
  set (A := 2 ^ Z.max 0 (- p)). set (B := 2 ^ Z.max 0 p).
  assert (HA : 0 < A) by (apply Z.pow_pos_nonneg; lia).
  assert (HB : 0 < B) by (apply Z.pow_pos_nonneg; lia).
  pose proof (round_half_even_error (n * A) (b * B) ltac:(nia)) as Herr.
  set (m := round_half_even (n * A) (b * B)) in *.
  destruct (2 ^ 1024 <=? m * B); [done|]. intros [= <-].
  exists (Z.sgn a * Z.sgn b * m * B), A. split; [done|]. split; [done|].
  assert (Habs : Z.abs (Z.sgn a * Z.sgn b * m * B * b - a * A)
                 = Z.abs (m * (b * B) - n * A)).
  { unfold n. rewrite (Z.sgn_pos b) by lia.
    destruct (Z.abs_spec a) as [[Ha ->]|[Ha ->]].
    - rewrite (Z.sgn_pos a) by lia. f_equal. lia.
    - rewrite (Z.sgn_neg a) by lia.
      rewrite <- (Z.abs_opp (-1 * 1 * m * B * b - a * A)). f_equal. lia. }
  rewrite Habs.
  assert (Hscale : b * B * 2 ^ 1074 ≤ n * A * 2 ^ 1022 + b * A).
  { destruct (decide (- 1074 < e - 52)) as [Hnormal|Hsub].
    - pose proof (scaled_quotient_large n b e Hn Hb Hreach Hnormal) as Hlarge.
      unfold A, B, p. rewrite (Z.max_l (e - 52) (- 1074)) by lia.
      assert (Hpow : 2 ^ 52 * 2 ^ 1022 = 2 ^ 1074) by (by rewrite <- Z.pow_add_r).
      rewrite <- Hpow.
      set (A' := 2 ^ Z.max 0 (- (e - 52))) in *.
      set (B' := 2 ^ Z.max 0 (e - 52)) in *.
      assert (0 < A') by (apply Z.pow_pos_nonneg; lia).
      pose proof (Z.pow_pos_nonneg 2 1022 ltac:(lia) ltac:(lia)).
      clearbody A' B'. clear -Hlarge Hb H H0.
      generalize dependent (2 ^ 1022). generalize dependent (2 ^ 52). intros.
      assert (b * B' * z * z0 ≤ n * A' * z0) by (apply Z.mul_le_mono_nonneg_r; lia).
      nia.
    - unfold A, B, p. rewrite (Z.max_r (e - 52) (- 1074)) by lia.
      change (Z.max 0 (- -1074)) with 1074. change (Z.max 0 (-1074)) with 0.
      change (2 ^ 0) with 1.
      pose proof (Z.pow_pos_nonneg 2 1022 ltac:(lia) ltac:(lia)).
      pose proof (Z.pow_pos_nonneg 2 1074 ltac:(lia) ltac:(lia)).
      generalize dependent (2 ^ 1074). generalize dependent (2 ^ 1022). intros.
      assert (0 ≤ n * z0 * z) by (apply Z.mul_nonneg_nonneg; nia).
      lia. }
  assert (Hpow : 2 ^ 1075 = 2 * 2 ^ 1074) by (by rewrite <- (Z.pow_succ_r 2 1074)).
  rewrite Hpow.
  pose proof (Z.pow_pos_nonneg 2 1074 ltac:(lia) ltac:(lia)).
  fold n. set (E := Z.abs (m * (b * B) - n * A)) in *.
  assert (HE : 0 ≤ E) by (unfold E; lia).
  clearbody E. clear Habs.
  generalize dependent (2 ^ 1074). generalize dependent (2 ^ 1022). intros.
  assert (2 * E * z0 ≤ b * B * z0) by (apply Z.mul_le_mono_nonneg_r; lia).
  lia.
Qed.

(** X5. The reported average is the quotient of the totals up to the
    rounding of a double: times the number of papers it differs from
    the total of the citations by at most that total times [2 ^ -53]
    (plus the number of papers times [2 ^ -1075], for a quotient near
    zero); the three change fields are 0 whatever the period. *)
Theorem X5_summary_average db period stats :
  get_summary_stats db period = Ok stats →
  (Qabs (avg_citations stats * inject_Z (total_papers stats)
         - inject_Z (total_citations stats))
   <= Qabs (inject_Z (total_citations stats)) * (1 # 2 ^ 53)
      + inject_Z (total_papers stats) * (1 # 2 ^ 1075))%Q
  ∧ papers_change stats = 0
  ∧ citations_change stats = 0
  ∧ h_index_change stats = 0.
Proof.
  unfold get_summary_stats.
  set (papers := get_papers_with_latest_citations db).
  set (total := py_sum (citations <$> papers)).
  destruct (0 <? len papers) eqn:Hn.
  - unfold py_truediv. destruct (len papers =? 0) eqn:H0; [lia|].
    destruct (nearest_double total (len papers)) as [v|] eqn:Hv; simpl; [|done].
    intros [= <-]. simpl. split; [|done].
    destruct (nearest_double_error total (len papers) v ltac:(lia) Hv)
      as (num & A & -> & HA & Herr).
    unfold Qle, Qabs, Qminus, Qplus, Qmult, Qopp, inject_Z. simpl Qnum. simpl Qden.
    rewrite ?Pos.mul_1_l, ?Pos.mul_1_r, ?Pos2Z.inj_mul, ?Pos2Z.inj_pow.
    rewrite (Z2Pos.id A) by done. change (Z.pos 2) with 2.
    change (Z.pos 53) with 53. change (Z.pos 1075) with 1075.
    rewrite !Z.mul_1_r.
    replace (num * len papers + - total * A) with (num * len papers - total * A) by lia.
    assert (Hpow : 2 ^ 1075 = 2 ^ 53 * 2 ^ 1022) by (by rewrite <- Z.pow_add_r).
    pose proof (Z.pow_pos_nonneg 2 53 ltac:(lia) ltac:(lia)) as H53.
    rewrite Hpow in *. clear Hpow.
    set (E := Z.abs (num * len papers - total * A)) in *. clearbody E.
    set (T := Z.abs total) in *. clearbody T.
    generalize dependent (2 ^ 1022). generalize dependent (2 ^ 53). intros z53 H53 z1022 Herr.
    assert (z53 * (E * (z53 * z1022)) ≤ z53 * (T * A * z1022 + len papers * A))
      by (apply Z.mul_le_mono_nonneg_l; lia).
    lia.
  - simpl. intros [= <-]. simpl. split; [|done].
    assert (Hnil : papers = []) by (apply nil_length_inv; unfold len in Hn; lia).
    unfold total. rewrite Hnil.
    apply Qle_bool_imp_le. vm_compute. reflexivity.
Qed.

Lemma X5_witness :
  ∃ stats,
    get_summary_stats (db_of_papers [paper_2020_5; paper_2020_3; paper_2020_3]) "month"
    = Ok stats
    ∧ (Qabs (avg_citations stats * inject_Z (total_papers stats)
             - inject_Z (total_citations stats))
       <= Qabs (inject_Z (total_citations stats)) * (1 # 2 ^ 53)
          + inject_Z (total_papers stats) * (1 # 2 ^ 1075))%Q.
Proof.
  eexists. split; [vm_compute; reflexivity|].
  apply (X5_summary_average
           (db_of_papers [paper_2020_5; paper_2020_3; paper_2020_3]) "month").
  vm_compute. reflexivity.
Defined.

(** ** Top papers, further *)

Lemma comprehension_Raise {A B} (f : A → result B) l e :
  comprehension f l = Raise e → ∃ x, x ∈ l ∧ f x = Raise e.
Proof.
  induction l as [|x l IH]; simpl; [done|].
  destruct (f x) as [y|e'] eqn:Ex; simpl.
  - destruct (comprehension f l) as [ys|e'] eqn:El; simpl; [done|].
    intros [= ->]. destruct (IH eq_refl) as (x' & Hin & Hx').
    exists x'. split; [by apply list_elem_of_further|done].
  - intros [= ->]. exists x. split; [apply list_elem_of_here|done].
Qed.

Lemma top_entry_Raise p e :
  top_entry p = Raise e → e = KeyError "year" ∧ year p = Absent.
Proof.
  unfold top_entry. destruct (year p); simpl; [|done..]. by intros [= <-].
Qed.

Lemma slice_to_all {A} (limit : Z) (l : list A) : len l ≤ limit → slice_to limit l = l.
Proof.
  unfold slice_to, len. intros Hlen.
  destruct (0 <=? limit) eqn:E; [|lia]. apply take_ge. lia.
Qed.

(** X6. For a non-negative [limit], [get_top_papers] returns exactly
    [min(limit, number of papers)] entries; for every [limit], the papers
    behind the returned entries and the papers left out make up the input
    list, and no paper left out has more citations than a returned one. *)
Theorem X6_top_papers_are_the_most_cited db limit out :
  get_top_papers db limit = Ok out →
  let papers := get_papers_with_latest_citations db in
  (0 ≤ limit → len out = Z.min limit (len papers))
  ∧ ∃ top rest,
      Forall2 (λ p e, top_entry p = Ok e) top out
      ∧ top ++ rest ≡ₚ papers
      ∧ ∀ p q, p ∈ top → q ∈ rest → citations q ≤ citations p.
Proof.
  intros Hout papers. unfold get_top_papers in Hout. fold papers in Hout.
  set (sorted := py_sorted_rev Z.leb citations papers) in *.
  apply comprehension_Ok in Hout.
  pose proof (Forall2_length _ _ _ Hout) as Hlen.
  destruct (slice_to_take limit sorted) as (n & Hn & Hlim).
  rewrite Hn in Hout, Hlen. split.
  - intros Hpos. rewrite length_take, (Hlim Hpos) in Hlen.
    unfold sorted in Hlen. rewrite py_sorted_rev_length in Hlen. unfold len. lia.
  - exists (take n sorted), (drop n sorted). split; [done|]. split.
    + rewrite take_drop. apply py_sorted_rev_perm.
    + intros p q Hp Hq. apply (desc_Z_flip_le citations p q).
      eapply (StronglySorted_app_1_elem_of _ (take n sorted) (drop n sorted)); [|done..].
      rewrite take_drop.
      apply py_sorted_rev_sorted; [apply Zleb_total|apply Zleb_trans].
Qed.

Lemma X6_witness :
  ∃ out,
    get_top_papers (db_of_papers [paper_2021_1; paper_2020_5; paper_2020_3]) 2 = Ok out
    ∧ len out = 2.
Proof.
  eexists. split; [reflexivity|].
  apply (X6_top_papers_are_the_most_cited
           (db_of_papers [paper_2021_1; paper_2020_5; paper_2020_3]) 2 _ eq_refl).
  lia.
Defined.

(** X7. The only exception [get_top_papers] raises is the key error for
    [year], and only when some paper lacks that key; when [limit] covers
    the whole list, one paper without the key is enough to raise it. *)
Theorem X7_top_papers_key_error db limit :
  let papers := get_papers_with_latest_citations db in
  (∀ e, get_top_papers db limit = Raise e →
        e = KeyError "year" ∧ ∃ p, p ∈ papers ∧ year p = Absent)
  ∧ (len papers ≤ limit → (∃ p, p ∈ papers ∧ year p = Absent) →
     get_top_papers db limit = Raise (KeyError "year")).
Proof.
  intros papers. unfold get_top_papers. fold papers.
  set (sorted := py_sorted_rev Z.leb citations papers).
  assert (Hperm : sorted ≡ₚ papers) by apply py_sorted_rev_perm.
  split.
  - intros e He. apply comprehension_Raise in He as (p & Hin & Hp).
    apply top_entry_Raise in Hp as [-> Hy]. split; [done|].
    exists p. split; [|done]. rewrite <- Hperm.
    destruct (slice_to_take limit sorted) as (n & Hn & _). rewrite Hn in Hin.
    by apply (subseteq_take n sorted).
  - intros Hlen (p & Hin & Hy).
    rewrite slice_to_all by (unfold len in *; unfold sorted; by rewrite py_sorted_rev_length).
    destruct (comprehension top_entry sorted) as [out|e] eqn:Hc.
    + apply comprehension_Ok in Hc. rewrite <- Hperm in Hin.
      apply list_elem_of_lookup_1 in Hin as [i Hi].
      destruct (Forall2_lookup_l _ _ _ _ _ Hc Hi) as (e & _ & He).
      unfold top_entry in He. rewrite Hy in He. done.
    + apply comprehension_Raise in Hc as (q & _ & Hq).
      apply top_entry_Raise in Hq as [-> _]. done.
Qed.

Lemma X7_witness :
  get_top_papers (db_of_papers [paper_2020_5; mkPaper "K" 2 Absent Null Null]) 10
  = Raise (KeyError "year").
Proof.
  apply (X7_top_papers_key_error
           (db_of_papers [paper_2020_5; mkPaper "K" 2 Absent Null Null]) 10).
  - unfold len. simpl. lia.
  - eexists. split; [apply list_elem_of_further, list_elem_of_here|reflexivity].
Defined.

(** ** Paper statistics, further *)

Lemma get_paper_stats_fields db identifier now paper stats :
  fetchone (List.filter (row_matches identifier) (papers_table db)) = Some paper →
  get_paper_stats db identifier now = Ok stats →
  stats_title stats = row_title paper
  ∧ stats_doi stats = row_doi paper
  ∧ stats_arxiv_id stats = row_arxiv_id paper
  ∧ stats_year stats = row_year paper
  ∧ stats_venue stats = row_venue paper.
Proof.
  intros Hfetch. unfold get_paper_stats. rewrite Hfetch.
  destruct (foldl _ _ _) as [[c7d c30d] c1y]. intros [= <-]. simpl. done.
Qed.

Lemma horizon_max_ge now horizon history r :
  r ∈ history → days_between now (timestamp r) ≤ horizon →
  citation_count r ≤ horizon_max now horizon history.
Proof.
  intros Hin Hr. induction history as [|r' history IH]; [by apply elem_of_nil in Hin|].
  rewrite horizon_max_cons.
  apply elem_of_cons in Hin as [->|Hin].
  - destruct (days_between now (timestamp r') <=? horizon) eqn:E; lia.
  - specialize (IH Hin). destruct (days_between now (timestamp r') <=? horizon); lia.
Qed.

Lemma horizon_max_mono now horizon horizon' history :
  horizon ≤ horizon' →
  horizon_max now horizon history ≤ horizon_max now horizon' history.
Proof.
  intros Hh. induction history as [|r history IH]; [done|].
  rewrite !horizon_max_cons.
  pose proof (horizon_max_nonneg now horizon history).
  destruct (days_between now (timestamp r) <=? horizon) eqn:E,
           (days_between now (timestamp r) <=? horizon') eqn:E'; lia.
Qed.

(** X8. The statistics returned by [get_paper_stats] describe a row of
    the papers table whose DOI or arXiv ID is the identifier: title, DOI,
    arXiv ID, year and venue are those of that row, so the identifier
    asked for comes back as the DOI or as the arXiv ID. *)
Theorem X8_paper_stats_describe_matching_row db identifier now stats :
  get_paper_stats db identifier now = Ok stats →
  (∃ paper,
     paper ∈ papers_table db
     ∧ (row_doi paper = Some identifier ∨ row_arxiv_id paper = Some identifier)
     ∧ stats_title stats = row_title paper
     ∧ stats_doi stats = row_doi paper
     ∧ stats_arxiv_id stats = row_arxiv_id paper
     ∧ stats_year stats = row_year paper
     ∧ stats_venue stats = row_venue paper)
  ∧ (stats_doi stats = Some identifier ∨ stats_arxiv_id stats = Some identifier).
Proof.
  intros Hstats.
  destruct (fetchone (List.filter (row_matches identifier) (papers_table db)))
    as [paper|] eqn:Hfetch.
  - destruct (fetchone_filter_elem _ _ _ Hfetch) as [Hin Hm].
    apply row_matches_true in Hm.
    destruct (get_paper_stats_fields db identifier now paper stats Hfetch Hstats)
      as (Ht & Hd & Ha & Hy & Hv).
    split; [by exists paper|].
    rewrite Hd, Ha. exact Hm.
  - unfold get_paper_stats in Hstats. by rewrite Hfetch in Hstats.
Qed.

Lemma X8_witness :
  ∃ stats,
    get_paper_stats db_two_platforms "10.1000/x" (20 * day) = Ok stats
    ∧ (stats_doi stats = Some "10.1000/x" ∨ stats_arxiv_id stats = Some "10.1000/x").
Proof.
  eexists. split; [reflexivity|].
  apply (proj2 (X8_paper_stats_describe_matching_row
                  db_two_platforms "10.1000/x" (20 * day) _ eq_refl)).
Defined.

(** X9. When the history rows are citation rows of the paper, the growth
    reported for a horizon is 0 as soon as the horizon contains a record
    that holds the reported current count: the current count is the
    maximum of all rows, so nothing is left once the horizon maximum is
    subtracted.  In particular data that only grows shows no growth. *)
Theorem X9_no_growth_when_current_count_in_horizon db identifier now stats :
  get_paper_stats db identifier now = Ok stats →
  ∃ paper,
    fetchone (List.filter (row_matches identifier) (papers_table db)) = Some paper
    ∧ let history := get_citation_history db (row_id paper) 365 in
      history_from_table db (row_id paper) →
      ∀ r, r ∈ history → citation_count r = stats_citations stats →
        (days_between now (timestamp r) ≤ 7 → citations_7d stats = 0)
        ∧ (days_between now (timestamp r) ≤ 30 → citations_30d stats = 0)
        ∧ (days_between now (timestamp r) ≤ 365 → citations_1y stats = 0).
Proof.
  intros Hstats.
  destruct (fetchone (List.filter (row_matches identifier) (papers_table db)))
    as [paper|] eqn:Hfetch.
  - exists paper. split; [done|].
    destruct (get_paper_stats_found db identifier now paper Hfetch)
      as (stats' & Hs & H7 & H30 & H1y & Hnn).
    rewrite Hs in Hstats. simplify_eq. cbv zeta in *.
    intros Hsub r Hr Hcount. specialize (Hnn Hsub).
    assert (Hzero : ∀ horizon, days_between now (timestamp r) ≤ horizon →
              guarded_growth (stats_citations stats)
                (horizon_max now horizon (get_citation_history db (row_id paper) 365)) = 0).
    { intros horizon Hd. specialize (Hnn horizon).
      pose proof (horizon_max_ge now horizon _ r Hr Hd) as Hge.
      unfold guarded_growth in *. destruct (_ =? 0); lia. }
    rewrite H7, H30, H1y. auto.
  - unfold get_paper_stats in Hstats. by rewrite Hfetch in Hstats.
Qed.

Lemma X9_witness :
  ∃ stats,
    get_paper_stats db_two_platforms "10.1000/x" (20 * day) = Ok stats
    ∧ citations_30d stats = 0.
Proof.
  eexists. split; [reflexivity|].
  destruct (X9_no_growth_when_current_count_in_horizon
              db_two_platforms "10.1000/x" (20 * day) _ eq_refl)
    as (paper & Hp & H).
  injection Hp as <-. cbv zeta in H.
  apply (H ltac:(intros r Hr; simpl in Hr;
                 apply elem_of_cons in Hr as [->|Hr];
                 [eexists; split; [apply list_elem_of_here|split; reflexivity]
                 |apply list_elem_of_singleton in Hr as ->;
                  eexists; split;
                  [apply list_elem_of_further, list_elem_of_here|split; reflexivity]])
           (mkHistoryRecord 0 5)).
  - apply list_elem_of_here.
  - reflexivity.
  - vm_compute. discriminate.
Defined.

(** X10. The reported growths are ordered by horizon once they are not
    0: a non-zero 7-day growth is at least the 30-day growth, and a
    non-zero 30-day growth is at least the 1-year growth. *)
Theorem X10_growth_ordered_by_horizon db identifier now stats :
  get_paper_stats db identifier now = Ok stats →
  (citations_7d stats ≠ 0 → citations_30d stats ≤ citations_7d stats)
  ∧ (citations_30d stats ≠ 0 → citations_1y stats ≤ citations_30d stats).
Proof.
  intros Hstats.
  destruct (fetchone (List.filter (row_matches identifier) (papers_table db)))
    as [paper|] eqn:Hfetch.
  - destruct (get_paper_stats_found db identifier now paper Hfetch)
      as (stats' & Hs & H7 & H30 & H1y & _).
    rewrite Hs in Hstats. simplify_eq. cbv zeta in *.
    set (history := get_citation_history db (row_id paper) 365) in *.
    pose proof (horizon_max_mono now 7 30 history ltac:(lia)).
    pose proof (horizon_max_mono now 30 365 history ltac:(lia)).
    pose proof (horizon_max_nonneg now 7 history).
    rewrite H7, H30, H1y. unfold guarded_growth.
    destruct (horizon_max now 7 history =? 0) eqn:E7,
             (horizon_max now 30 history =? 0) eqn:E30,
             (horizon_max now 365 history =? 0) eqn:E365; split; intros; lia.
  - unfold get_paper_stats in Hstats. by rewrite Hfetch in Hstats.
Qed.

Lemma X10_witness :
  ∃ stats,
    get_paper_stats db_corrected_count "2101.00001" (20 * day) = Ok stats
    ∧ citations_7d stats = 3
    ∧ citations_30d stats ≤ citations_7d stats.
Proof.
  eexists. split; [reflexivity|]. split; [reflexivity|].
  apply (X10_growth_ordered_by_horizon db_corrected_count "2101.00001" (20 * day) _ eq_refl).
  vm_compute. discriminate.
Defined.

(** ** Citation trends, further *)

Lemma List_filter_perm {A} (f : A → bool) (l l' : list A) :
  l ≡ₚ l' → List.filter f l ≡ₚ List.filter f l'.
Proof.
  induction 1 as [|x l l' _ IH|x y l|l l' l'' _ IH1 _ IH2]; simpl.
  - done.
  - destruct (f x); [by constructor|done].
  - destruct (f x), (f y); try done. apply perm_swap.
  - by etrans.
Qed.

(** X11. The result of [get_citation_trends] does not depend on the
    order in which the papers are listed. *)
Theorem X11_citation_trends_order_independent db db' :
  get_papers_with_latest_citations db ≡ₚ get_papers_with_latest_citations db' →
  get_citation_trends db = get_citation_trends db'.
Proof.
  intros Hp. unfold get_citation_trends.
  set (papers := get_papers_with_latest_citations db) in *.
  set (papers' := get_papers_with_latest_citations db') in *.
  f_equal.
  - apply map_eq. intros y. destruct (decide (y = 0)) as [->|Hy].
    + by rewrite !trends_loop_lookup_0.
    + rewrite !trends_loop_lookup by done.
      pose proof (List_filter_perm (λ p, bool_decide (year p = Val y)) _ _ Hp) as Hf.
      fold (published_in y papers) in Hf. fold (published_in y papers') in Hf.
      destruct (published_in y papers) as [|p ps] eqn:E,
               (published_in y papers') as [|p' ps'] eqn:E'.
      * done.
      * by apply Permutation_nil_cons in Hf.
      * symmetry in Hf. by apply Permutation_nil_cons in Hf.
      * f_equal. f_equal.
        -- unfold len. by rewrite Hf.
        -- f_equal. apply py_sum_perm. by rewrite Hf.
  - unfold len. by rewrite Hp.
  - apply py_sum_perm. by rewrite Hp.
Qed.

Lemma X11_witness :
  get_citation_trends (db_of_papers [paper_2020_5; paper_2021_1; paper_2020_3])
  = get_citation_trends (db_of_papers [paper_2021_1; paper_2020_5; paper_2020_3]).
Proof.
  apply (X11_citation_trends_order_independent
           (db_of_papers [paper_2020_5; paper_2021_1; paper_2020_3])
           (db_of_papers [paper_2021_1; paper_2020_5; paper_2020_3])).
  simpl. apply perm_swap.
Defined.

(** ** Low-visibility papers, further *)

Lemma low_visibility_truthy threshold now_year p :
  low_visibility threshold now_year p
  = match truthy_year p with
    | Some y => (1 <=? now_year - y) && (citations p <? threshold)
    | None => false
    end.
Proof.
  unfold low_visibility, truthy_year. destruct (year p) as [| |y]; simpl; try done.
  by destruct (y =? 0).
Qed.

Lemma truthy_year_get p y : truthy_year p = Some y → get (year p) = Some y.
Proof. intros [-> _]%truthy_year_Some. done. Qed.

(** The loop appends, in order, the entries of the papers that pass the
    test, and stops at the first entry that cannot be built. *)
Lemma low_visibility_loop_spec threshold now_year papers acc :
  low_visibility_loop threshold now_year papers acc
  = let* new := comprehension (low_visibility_entry now_year)
                  (List.filter (low_visibility threshold now_year) papers) in
    Ok (acc ++ new).
Proof.
  revert acc. induction papers as [|p papers IH]; intros acc.
  - simpl. by rewrite app_nil_r.
  - cbn [low_visibility_loop List.filter]. rewrite low_visibility_truthy.
    destruct (truthy_year p) as [y|] eqn:Hy; [|apply IH].
    destruct ((1 <=? now_year - y) && (citations p <? threshold)); [|apply IH].
    cbn [comprehension]. unfold low_visibility_entry at 1.
    rewrite (truthy_year_get p y Hy). simpl.
    destruct (_estimate_potential now_year p) as [score|e]; simpl; [|done].
    rewrite IH.
    destruct (comprehension _ _) as [new|e]; simpl; [|done].
    by rewrite <- app_assoc.
Qed.

Lemma low_visibility_entry_Ok now_year p e :
  low_visibility_entry now_year p = Ok e →
  lv_title e = title p
  ∧ lv_citations e = citations p
  ∧ lv_doi e = get (doi p)
  ∧ lv_year e = default 0 (get (year p))
  ∧ lv_age e = now_year - lv_year e
  ∧ _estimate_potential now_year p = Ok (potential e).
Proof.
  unfold low_visibility_entry.
  destruct (_estimate_potential now_year p) as [score|]; simpl; [|done].
  intros [= <-]. simpl. done.
Qed.

Lemma low_visibility_entry_Raise now_year p e :
  low_visibility_entry now_year p = Raise e →
  e = AttributeError "lower" ∧ venue p = Null.
Proof.
  unfold low_visibility_entry, _estimate_potential.
  destruct (venue p); simpl; [done| |done]. by intros [= <-].
Qed.

Lemma low_visibility_entry_null now_year p :
  venue p = Null → low_visibility_entry now_year p = Raise (AttributeError "lower").
Proof.
  intros Hv. unfold low_visibility_entry, _estimate_potential. by rewrite Hv.
Qed.

Lemma comprehension_first_Raise {A B} (f : A → result B) l x e :
  x ∈ l → f x = Raise e → ∃ e', comprehension f l = Raise e'.
Proof.
  intros Hin Hx. induction l as [|y l IH]; [by apply elem_of_nil in Hin|].
  simpl. destruct (f y) as [b|e'] eqn:Ey; simpl; [|eauto].
  apply elem_of_cons in Hin as [->|Hin]; [congruence|].
  destruct (IH Hin) as [e' ->]. simpl. eauto.
Qed.

Lemma low_visibility_year threshold now_year p :
  low_visibility threshold now_year p = true →
  ∃ y, year p = Val y ∧ y ≠ 0 ∧ 1 ≤ now_year - y ∧ citations p < threshold.
Proof.
  unfold low_visibility. destruct (year p) as [| |y]; [done..|].
  intros H. exists y. split; [done|].
  apply andb_prop in H as [H Hc]. apply andb_prop in H as [H0 Ha].
  apply negb_true_iff in H0. lia.
Qed.

(** X12. When [identify_low_visibility_papers] returns, it returns one
    entry for each paper that has a year other than 0, is at least one
    calendar year old and is below the threshold, and nothing else: the
    result is a rearrangement of the entries of these papers, taken in
    input order, each carrying the title, year, citations, age, DOI and
    potential of its paper. *)
Theorem X12_low_visibility_complete db threshold now_year out :
  identify_low_visibility_papers db threshold now_year = Ok out →
  let flagged :=
    List.filter (low_visibility threshold now_year) (get_papers_with_latest_citations db) in
  len out = len flagged
  ∧ ∃ entries,
      out ≡ₚ entries
      ∧ Forall2 (λ p e,
          lv_title e = title p
          ∧ lv_citations e = citations p
          ∧ lv_doi e = get (doi p)
          ∧ year p = Val (lv_year e)
          ∧ lv_age e = now_year - lv_year e
          ∧ _estimate_potential now_year p = Ok (potential e)) flagged entries.
Proof.
  intros Hout flagged. unfold identify_low_visibility_papers in Hout.
  rewrite low_visibility_loop_spec in Hout. fold flagged in Hout.
  destruct (comprehension _ flagged) as [entries|] eqn:Hc; simpl in Hout; [|done].
  injection Hout as <-. apply comprehension_Ok in Hc.
  split.
  - unfold len. rewrite py_sorted_rev_length, <- (Forall2_length _ _ _ Hc). done.
  - exists entries. split; [apply py_sorted_rev_perm|].
    assert (Hall : Forall (λ p, low_visibility threshold now_year p = true) flagged).
    { apply Forall_forall. intros p Hp. apply list_elem_of_In, List.filter_In in Hp. tauto. }
    clear -Hc Hall.
    induction Hc as [|p e ps es He _ IH]; [constructor|].
    apply Forall_cons in Hall as [Hp Hall]. constructor; [|by apply IH].
    destruct (low_visibility_year _ _ _ Hp) as (y & Hy & _).
    destruct (low_visibility_entry_Ok now_year p e He)
      as (Ht & Hcit & Hd & Hyear & Hage & Hpot).
    rewrite Hy in Hyear. simpl in Hyear. rewrite Hyear in *. done.
Qed.

Lemma X12_witness :
  ∃ out,
    identify_low_visibility_papers
      (db_of_papers [paper_2020_5; paper_2020_3; paper_2021_1]) 5 2026 = Ok out
    ∧ len out = 2.
Proof.
  eexists. split; [reflexivity|].
  apply (X12_low_visibility_complete
           (db_of_papers [paper_2020_5; paper_2020_3; paper_2021_1]) 5 2026 _ eq_refl).
Defined.

(** X13. [identify_low_visibility_papers] raises exactly when a paper
    that passes its test holds [None] as venue, and then raises the
    attribute error; a [None] venue on a paper that does not pass the
    test does no harm. *)
Theorem X13_low_visibility_raises_iff db threshold now_year :
  let papers := get_papers_with_latest_citations db in
  let failing p := low_visibility threshold now_year p = true ∧ venue p = Null in
  (∀ e, identify_low_visibility_papers db threshold now_year = Raise e →
        e = AttributeError "lower" ∧ ∃ p, p ∈ papers ∧ failing p)
  ∧ ((∃ p, p ∈ papers ∧ failing p) →
     identify_low_visibility_papers db threshold now_year
     = Raise (AttributeError "lower"))
  ∧ ((∀ p, p ∈ papers → ¬ failing p) →
     ∃ out, identify_low_visibility_papers db threshold now_year = Ok out).
Proof.
  intros papers failing.
  unfold identify_low_visibility_papers. rewrite low_visibility_loop_spec. fold papers.
  assert (Hraise : ∀ e,
            comprehension (low_visibility_entry now_year)
              (List.filter (low_visibility threshold now_year) papers) = Raise e →
            e = AttributeError "lower" ∧ ∃ p, p ∈ papers ∧ failing p).
  { intros e He. apply comprehension_Raise in He as (p & Hin & Hp).
    apply low_visibility_entry_Raise in Hp as [-> Hv]. split; [done|].
    apply list_elem_of_In, List.filter_In in Hin as [Hin Hq].
    exists p. split; [by apply list_elem_of_In|done]. }
  split; [|split].
  - intros e. destruct (comprehension _ _) as [new|e'] eqn:Hc; simpl; [done|].
    intros [= ->]. by apply Hraise.
  - intros (p & Hin & Hq & Hv).
    destruct (comprehension_first_Raise (low_visibility_entry now_year)
                (List.filter (low_visibility threshold now_year) papers) p
                (AttributeError "lower")) as [e He].
    + apply list_elem_of_In, List.filter_In. split; [by apply list_elem_of_In|done].
    + by apply low_visibility_entry_null.
    + rewrite He. simpl. by destruct (Hraise e He) as [-> _].
  - intros Hnone. destruct (comprehension _ _) as [new|e] eqn:Hc; simpl; [eauto|].
    destruct (Hraise e eq_refl) as [_ (p & Hin & Hf)]. by destruct (Hnone p Hin).
Qed.

Lemma X13_witness :
  identify_low_visibility_papers (db_of_papers [paper_2020_3; paper_null_venue]) 5 2026
  = Raise (AttributeError "lower")
  ∧ ∃ out,
      identify_low_visibility_papers (db_of_papers [paper_2020_3; paper_null_venue]) 1 2026
      = Ok out.
Proof.
  pose proof (X13_low_visibility_raises_iff
                (db_of_papers [paper_2020_3; paper_null_venue]) 5 2026) as (_ & H5 & _).
  pose proof (X13_low_visibility_raises_iff
                (db_of_papers [paper_2020_3; paper_null_venue]) 1 2026) as (_ & _ & H1).
  split.
  - apply H5. exists paper_null_venue.
    split; [apply list_elem_of_further, list_elem_of_here|]. split; reflexivity.
  - apply H1. intros p Hp [Hq Hv]. simpl in Hp.
    apply elem_of_cons in Hp as [->|Hp]; [discriminate|].
    apply list_elem_of_singleton in Hp as ->. discriminate.
Defined.

Lemma inject_Z_le a b : a ≤ b → (inject_Z a <= inject_Z b)%Q.
Proof. intros Hab. by rewrite <- Zle_Qle. Qed.

(** A paper that is at least one calendar year old scores at most
    10 for the venue, 4 for recency and 5 for citations. *)
Lemma estimate_potential_le now_year p score :
  _estimate_potential now_year p = Ok score →
  (∀ y, truthy_year p = Some y → 1 ≤ now_year - y) →
  (score <= 19)%Q.
Proof.
  unfold _estimate_potential.
  destruct (venue p) as [| |v]; simpl; [|done|]; intros [= <-] Hage.
  all: destruct (truthy_year p) as [y|]; [specialize (Hage y eq_refl)|].
  all: repeat match goal with
       | |- context [if ?b then _ else _] => destruct b eqn:?
       end.
  all: try (assert (inject_Z (3 - (now_year - y)) <= inject_Z 2)%Q
              by (apply inject_Z_le; lia)).
  all: try (assert (inject_Z (Z.min (citations p) 10) <= inject_Z 10)%Q
              by (apply inject_Z_le; lia)).
  all: repeat match goal with
       | H : (inject_Z ?z <= _)%Q |- _ => revert H; generalize (inject_Z z); intros ? ?
       end.
  all: change (inject_Z 2) with 2%Q in *; change (inject_Z 10) with 10%Q in *.
  all: lra.
Qed.

(** X14. Every potential returned by [identify_low_visibility_papers]
    is at most 19: 10 for a high-tier venue, 4 for a paper of last year
    and 5 for ten or more citations. *)
Theorem X14_low_visibility_potential_at_most_19 db threshold now_year out :
  identify_low_visibility_papers db threshold now_year = Ok out →
  Forall (λ e, (potential e <= 19)%Q) out.
Proof.
  unfold identify_low_visibility_papers.
  set (papers := get_papers_with_latest_citations db).
  destruct (low_visibility_loop threshold now_year papers []) as [lv|] eqn:Hloop;
    simpl; [|done].
  intros [= <-]. rewrite py_sorted_rev_perm.
  apply low_visibility_loop_flagged with (papers0 := papers) in Hloop; [|done|constructor].
  eapply Forall_impl; [exact Hloop|]. intros e (p & _ & Hy & _ & _ & _ & Hage & H1 & _ & Hs).
  eapply estimate_potential_le; [exact Hs|].
  intros y [Hy' _]%truthy_year_Some. rewrite Hy in Hy'. simplify_eq. lia.
Qed.

Lemma X14_witness :
  ∃ out,
    identify_low_visibility_papers
      (db_of_papers [paper_2020_5; paper_2020_3; paper_2021_1]) 5 2026 = Ok out
    ∧ Forall (λ e, (potential e <= 19)%Q) out.
Proof.
  eexists. split; [reflexivity|].
  apply (X14_low_visibility_potential_at_most_19
           (db_of_papers [paper_2020_5; paper_2020_3; paper_2021_1]) 5 2026 _ eq_refl).
Defined.

(** ** Sorting and filtering *)

Section PySortedFilter.
Context {A K : Type}.
Variable leb : K → K → bool.
Variable key : A → K.
Hypothesis leb_trans : ∀ a b c, leb a b = true → leb b c = true → leb a c = true.
Variable f : A → bool.

Lemma insert_rev_front x l :
  Forall (λ z, leb (key z) (key x) = true) l → insert_rev leb key x l = x :: l.
Proof. destruct 1 as [|z l Hz _]; simpl; [done|]. by rewrite Hz. Qed.

(** Filtering a descending list after an insertion amounts to inserting
    into the filtered list. *)
Lemma filter_insert_rev x l :
  StronglySorted (desc leb key) l →
  List.filter f (insert_rev leb key x l)
  = if f x then insert_rev leb key x (List.filter f l) else List.filter f l.
Proof.
  induction 1 as [|y l Hl IH Hy]; simpl.
  - by destruct (f x).
  - destruct (leb (key y) (key x)) eqn:E; simpl.
    + destruct (f x) eqn:Ex; [|done].
      destruct (f y) eqn:Ey; simpl; [by rewrite E|].
      rewrite insert_rev_front; [done|].
      apply Forall_forall. intros z Hz.
      apply list_elem_of_In, List.filter_In in Hz as [Hz _].
      rewrite Forall_forall in Hy.
      apply (leb_trans _ (key y)); [|done]. by apply Hy, list_elem_of_In.
    + rewrite IH. destruct (f x), (f y); simpl; try done. by rewrite E.
Qed.
End PySortedFilter.

(** Filtering commutes with the stable descending sort. *)
Lemma py_sorted_rev_filter {A K} (leb : K → K → bool) (key : A → K) (f : A → bool) l :
  (∀ a b, leb a b = true ∨ leb b a = true) →
  (∀ a b c, leb a b = true → leb b c = true → leb a c = true) →
  List.filter f (py_sorted_rev leb key l) = py_sorted_rev leb key (List.filter f l).
Proof.
  intros Htotal Htrans. induction l as [|x l IH]; [done|].
  cbn [py_sorted_rev foldr List.filter]. fold (py_sorted_rev leb key l).
  rewrite filter_insert_rev by (done || by apply py_sorted_rev_sorted).
  rewrite IH. by destruct (f x).
Qed.

Lemma comprehension_filter {A B} (g : A → result B) (f : A → bool) (f' : B → bool) l out :
  (∀ x y, g x = Ok y → f' y = f x) →
  comprehension g l = Ok out →
  comprehension g (List.filter f l) = Ok (List.filter f' out).
Proof.
  intros Hf. revert out. induction l as [|x l IH]; intros out; simpl.
  - by intros [= <-].
  - destruct (g x) as [y|] eqn:Ex; simpl; [|done].
    destruct (comprehension g l) as [ys|] eqn:El; simpl; [|done].
    intros [= <-]. simpl. rewrite (Hf x y Ex).
    destruct (f x); simpl; rewrite ?Ex; simpl; rewrite (IH ys eq_refl); done.
Qed.

Lemma low_visibility_lower_threshold threshold threshold' now_year papers :
  threshold ≤ threshold' →
  List.filter (low_visibility threshold now_year) papers
  = List.filter (λ p, citations p <? threshold)
      (List.filter (low_visibility threshold' now_year) papers).
Proof.
  intros Ht. induction papers as [|p papers IH]; [done|]. simpl.
  assert (Hp : low_visibility threshold now_year p
               = low_visibility threshold' now_year p && (citations p <? threshold)).
  { unfold low_visibility. destruct (year p) as [| |y]; try done.
    destruct (negb (y =? 0)), (1 <=? now_year - y); simpl; try done. lia. }
  rewrite Hp. destruct (low_visibility threshold' now_year p); simpl; [|done].
  destruct (citations p <? threshold); by rewrite IH.
Qed.

(** X15. Lowering the threshold filters the result: if the operation
    returns for a threshold, it returns for every lower threshold, and
    the result is the earlier one without the entries whose citations
    reach the lower threshold, in the same order. *)
Theorem X15_low_visibility_lower_threshold db threshold threshold' now_year out :
  threshold ≤ threshold' →
  identify_low_visibility_papers db threshold' now_year = Ok out →
  identify_low_visibility_papers db threshold now_year
  = Ok (List.filter (λ e, lv_citations e <? threshold) out).
Proof.
  intros Ht. unfold identify_low_visibility_papers.
  rewrite !low_visibility_loop_spec.
  set (papers := get_papers_with_latest_citations db).
  destruct (comprehension _ (List.filter (low_visibility threshold' now_year) papers))
    as [entries|] eqn:Hc; simpl; [|done].
  intros [= <-].
  rewrite (low_visibility_lower_threshold threshold threshold') by done.
  rewrite (comprehension_filter _ _ (λ e, lv_citations e <? threshold) _ entries); [|
    |exact Hc].
  - simpl. f_equal. symmetry.
    apply py_sorted_rev_filter; [apply Qle_bool_total|apply Qle_bool_trans].
  - intros p e He. apply low_visibility_entry_Ok in He as (_ & -> & _). done.
Qed.

Lemma X15_witness :
  ∃ out,
    identify_low_visibility_papers
      (db_of_papers [paper_2020_5; paper_2020_3; paper_2021_1]) 5 2026 = Ok out
    ∧ identify_low_visibility_papers
        (db_of_papers [paper_2020_5; paper_2020_3; paper_2021_1]) 2 2026
      = Ok (List.filter (λ e, lv_citations e <? 2) out).
Proof.
  eexists. split; [reflexivity|].
  apply (X15_low_visibility_lower_threshold
           (db_of_papers [paper_2020_5; paper_2020_3; paper_2021_1]) 2 5 2026).
  - lia.
  - reflexivity.
Defined.

(** * The API layer *)

(** ** Semantic Scholar: fetching the papers of an author *)

Lemma collect_Returns {A B} (f : A → outcome B) l out :
  collect f l = Returns out → length out = length l.
Proof.
  revert out. induction l as [|x l IH]; intros out; simpl.
  - by intros [= <-].
  - destruct (f x); [|done]. destruct (collect f l) as [ys|]; [|done].
    intros [= <-]. simpl. by rewrite (IH ys).
Qed.

Lemma collect_take {A B} (f : A → outcome B) l out n :
  collect f l = Returns out → collect f (take n l) = Returns (take n out).
Proof.
  revert out n. induction l as [|x l IH]; intros out n; simpl.
  - intros [= <-]. by rewrite !take_nil.
  - destruct (f x) as [y|] eqn:Ex; [|done].
    destruct (collect f l) as [ys|] eqn:El; [|done]. intros [= <-].
    destruct n as [|n]; simpl; [done|].
    by rewrite Ex, (IH ys n eq_refl).
Qed.

Lemma collect_drop {A B} (f : A → outcome B) l out m :
  collect f l = Returns out → collect f (drop m l) = Returns (drop m out).
Proof.
  revert out m. induction l as [|x l IH]; intros out m; simpl.
  - intros [= <-]. by rewrite !drop_nil.
  - destruct (f x) as [y|] eqn:Ex; [|done].
    destruct (collect f l) as [ys|] eqn:El; [|done]. intros [= <-].
    destruct m as [|m]; simpl; [by rewrite Ex, El|].
    by apply IH.
Qed.

Lemma collect_take_drop {A B} (f : A → outcome B) l out n m :
  collect f l = Returns out →
  collect f (take n (drop m l)) = Returns (take n (drop m out)).
Proof. intros Hc. by apply collect_take, collect_drop. Qed.

Section SessionFacts.
Import SemanticScholarClient.
Variable session_get : nat → string → Z → Z → outcome Response.

Lemma author_papers_loop_fuel (fuel fuel' n : nat) aid limit offset papers o :
  author_papers_loop session_get fuel n aid limit offset papers = Some o →
  (fuel ≤ fuel')%nat →
  author_papers_loop session_get fuel' n aid limit offset papers = Some o.
Proof.
  revert fuel' n offset papers.
  induction fuel as [|fuel IH]; intros fuel' n offset papers; [done|].
  intros Hrun Hle. destruct fuel' as [|fuel']; [lia|].
  simpl in *. destruct (session_get n aid limit offset) as [response|]; [|done].
  destruct (status_code response =? 429); [apply IH; [done|lia]|].
  destruct (negb (status_code response =? 200)); [done|].
  destruct (json_data response) as [data|]; [|done].
  destruct (get_or [] data) as [[|p batch]|]; try done.
  destruct (collect paper_data (p :: batch)) as [new|]; [|done].
  destruct (_ || _); [done|]. apply IH; [done|lia].
Qed.

(** Without a 429 answer every request either ends the loop or moves
    the offset forward, and the loop ends once the offset reaches 1000. *)
Lemma author_papers_loop_ends (fuel n : nat) aid limit offset papers :
  (∀ n aid limit offset r,
     session_get n aid limit offset = Returns r → status_code r ≠ 429) →
  offset < 1000 → (Z.to_nat (1000 - offset) ≤ fuel)%nat →
  ∃ o, author_papers_loop session_get fuel n aid limit offset papers = Some o.
Proof.
  intros Hno. revert n offset papers.
  induction fuel as [|fuel IH]; intros n offset papers Hoff Hfuel; [lia|].
  simpl. destruct (session_get n aid limit offset) as [response|] eqn:Hr; [|eauto].
  destruct (status_code response =? 429) eqn:E429.
  { apply Hno in Hr. lia. }
  destruct (negb (status_code response =? 200)); [eauto|].
  destruct (json_data response) as [data|]; [|eauto].
  destruct (get_or [] data) as [[|p batch]|]; [eauto| |eauto].
  destruct (collect paper_data (p :: batch)) as [new|]; [|eauto].
  destruct (_ || _) eqn:Estop; [eauto|].
  apply orb_false_elim in Estop as [_ Hlt]. apply Z.leb_gt in Hlt.
  apply IH; unfold len in *; simpl length in *; lia.
Qed.
End SessionFacts.

(** X16. If the service never answers 429 (rate limited), a call of
    [get_author_papers] ends after at most 1000 requests, whatever the
    limit and whatever the service answers: it returns or raises, and
    more allowance for requests does not change the result. *)
Theorem X16_author_papers_ends_within_1000_requests
    (session_get : nat → string → Z → Z → outcome SemanticScholarClient.Response)
    self_author_id author_id limit :
  (∀ n aid limit offset r,
     session_get n aid limit offset = Returns r →
     SemanticScholarClient.status_code r ≠ 429) →
  ∃ o, ∀ fuel, (1000 ≤ fuel)%nat →
    SemanticScholarClient.get_author_papers session_get fuel self_author_id author_id limit
    = Some o.
Proof.
  intros Hno. unfold SemanticScholarClient.get_author_papers.
  destruct (str_or author_id self_author_id) as [[|c aid]|]; [eauto| |eauto].
  destruct (author_papers_loop_ends session_get 1000 0 (String c aid) limit 0 [] Hno)
    as [o Ho]; [lia..|].
  exists o. intros fuel Hfuel. by eapply author_papers_loop_fuel.
Qed.

Lemma X16_witness :
  ∃ o, ∀ fuel, (1000 ≤ fuel)%nat →
    SemanticScholarClient.get_author_papers
      (SemanticScholarClient.paging_service []) fuel None (Some "1741101") 100
    = Some o.
Proof.
  apply (X16_author_papers_ends_within_1000_requests
           (SemanticScholarClient.paging_service []) None (Some "1741101") 100).
  intros n aid limit offset r [= <-]. simpl. lia.
Defined.

Lemma page_cap_spec limit k :
  0 < limit → 0 ≤ k → k * limit < 1000 →
  (k + 1) * limit ≤ SemanticScholarClient.page_cap limit
  ∧ (1000 ≤ (k + 1) * limit → (k + 1) * limit = SemanticScholarClient.page_cap limit)
  ∧ 1000 ≤ SemanticScholarClient.page_cap limit < 1000 + limit.
Proof.
  intros Hl Hk Hlt. unfold SemanticScholarClient.page_cap.
  pose proof (Z.div_mod 999 limit ltac:(lia)) as Hdiv.
  pose proof (Z.mod_pos_bound 999 limit Hl) as Hmod.
  set (q := 999 / limit) in *. set (r := 999 mod limit) in *.
  assert (0 ≤ q) by (apply Z.div_pos; lia).
  assert (k ≤ q) by nia.
  repeat split; try nia.
  intros Hge. assert (q ≤ k) by nia. assert (k = q) by lia. subst k. lia.
Qed.

(** Against a paging service the loop, entered at a page boundary below
    1000 with the papers before it, returns the papers up to the cap. *)
Lemma author_papers_loop_paging all data aid limit (fuel n : nat) k :
  0 < limit →
  collect SemanticScholarClient.paper_data all = Returns data →
  0 ≤ k → k * limit < 1000 → k * limit ≤ len all →
  (Z.to_nat (1000 - k * limit) ≤ fuel)%nat →
  SemanticScholarClient.author_papers_loop (SemanticScholarClient.paging_service all)
    fuel n aid limit (k * limit) (take (Z.to_nat (k * limit)) data)
  = Some (Returns (take (Z.to_nat (SemanticScholarClient.page_cap limit)) data)).
Proof.
  intros Hl Hdata. revert n k.
  pose proof (collect_Returns _ _ _ Hdata) as Hlen.
  induction fuel as [|fuel IH]; intros n k Hk Hlt Hle Hfuel; [lia|].
  destruct (page_cap_spec limit k Hl Hk Hlt) as (Hcap1 & Hcap2 & Hcap3).
  unfold len in Hle.
  cbn [SemanticScholarClient.author_papers_loop SemanticScholarClient.paging_service
       SemanticScholarClient.status_code SemanticScholarClient.json_data get_or].
  change (200 =? 429) with false. change (negb (200 =? 200)) with false. cbv iota.
  set (off := Z.to_nat (k * limit)) in *.
  destruct (take (Z.to_nat limit) (drop off all)) as [|p batch] eqn:Hbatch.
  - apply take_nil_inv in Hbatch as [?|Hbatch]; [lia|].
    apply (f_equal length) in Hbatch. rewrite length_drop in Hbatch. simpl in Hbatch.
    do 2 f_equal. rewrite !take_ge by lia. done.
  - rewrite <- Hbatch. rewrite (collect_take_drop _ _ _ _ _ Hdata).
    assert (Hblen : len (take (Z.to_nat limit) (drop off all))
                    = Z.min limit (Z.of_nat (length all) - k * limit)).
    { unfold len. rewrite length_take, length_drop. lia. }
    rewrite Hblen. rewrite take_take_drop.
    destruct (Z.min limit (Z.of_nat (length all) - k * limit) <? limit) eqn:Eshort.
    + simpl. do 2 f_equal. rewrite !take_ge by lia. done.
    + apply Z.ltb_ge in Eshort.
      rewrite Z.min_l by lia. simpl.
      replace (k * limit + limit) with ((k + 1) * limit) by lia.
      destruct (1000 <=? (k + 1) * limit) eqn:Ecap.
      * apply Z.leb_le in Ecap. do 2 f_equal. f_equal. lia.
      * apply Z.leb_gt in Ecap.
        replace (off + Z.to_nat limit)%nat with (Z.to_nat ((k + 1) * limit)) by lia.
        apply IH; unfold len; lia.
Qed.

(** X17. Against a service that holds the papers of the author and
    answers every request with the page asked for, [get_author_papers]
    with a positive limit returns the dictionaries of the papers up to
    the first multiple of the limit that reaches 1000, in order: all of
    them when the author has at most 1000 papers, and otherwise no paper
    beyond that cap, without any error. *)
Theorem X17_author_papers_pages_up_to_cap all data self_author_id author_id c aid limit fuel :
  0 < limit →
  collect SemanticScholarClient.paper_data all = Returns data →
  str_or author_id self_author_id = Some (String c aid) →
  (1000 ≤ fuel)%nat →
  SemanticScholarClient.get_author_papers (SemanticScholarClient.paging_service all)
    fuel self_author_id author_id limit
  = Some (Returns (take (Z.to_nat (SemanticScholarClient.page_cap limit)) data))
  ∧ 1000 ≤ SemanticScholarClient.page_cap limit < 1000 + limit
  ∧ (len all ≤ 1000 → take (Z.to_nat (SemanticScholarClient.page_cap limit)) data = data).
Proof.
  intros Hl Hdata Haid Hfuel.
  destruct (page_cap_spec limit 0 Hl ltac:(lia) ltac:(lia)) as (_ & _ & Hcap).
  split; [|split; [done|]].
  - unfold SemanticScholarClient.get_author_papers. rewrite Haid.
    pose proof (author_papers_loop_paging all data (String c aid) limit fuel 0 0 Hl Hdata)
      as Hloop.
    simpl in Hloop. rewrite take_0 in Hloop. apply Hloop; unfold len; lia.
  - intros Hall. apply take_ge.
    rewrite (collect_Returns _ _ _ Hdata). unfold len in Hall. lia.
Qed.

Lemma X17_witness :
  let all := [SemanticScholarClient.raw_titled "A"; SemanticScholarClient.raw_titled "B";
              SemanticScholarClient.raw_titled "C"] in
  ∃ data,
    collect SemanticScholarClient.paper_data all = Returns data
    ∧ SemanticScholarClient.get_author_papers (SemanticScholarClient.paging_service all)
        1000 None (Some "1741101") 2
      = Some (Returns data).
Proof.
  intros all. eexists. split; [reflexivity|].
  destruct (X17_author_papers_pages_up_to_cap all _ None (Some "1741101") "1" "741101" 2 1000
              ltac:(lia) eq_refl eq_refl ltac:(lia)) as (Hrun & _ & Hall).
  rewrite Hall in Hrun; [exact Hrun|]. unfold len. simpl. lia.
Defined.

(** ** Data fetcher: fetching all platforms *)

Lemma dict_get_NoDup {V} (d : list (string * V)) key v :
  NoDup d.*1 → (key, v) ∈ d → dict_get key d = Some v.
Proof.
  induction d as [|[k v'] d IH]; intros Hnd Hin; [by apply elem_of_nil in Hin|].
  simpl in *. apply NoDup_cons in Hnd as [Hk Hnd].
  apply elem_of_cons in Hin as [[= -> ->]|Hin].
  - by rewrite bool_decide_eq_true_2.
  - rewrite bool_decide_eq_false_2; [by apply IH|].
    intros ->. apply Hk. apply list_elem_of_fmap. by exists (key, v).
Qed.

Section FetcherFacts.
Variable World : Type.
Variables fetch_orcid fetch_arxiv fetch_semantic_scholar fetch_google_scholar :
  World → outcome FetchResult * World.

Let fetch_platform :=
  DataFetcher.fetch_platform World fetch_orcid fetch_arxiv fetch_semantic_scholar
    fetch_google_scholar.
Let fetch_all_step :=
  DataFetcher.fetch_all_step World fetch_orcid fetch_arxiv fetch_semantic_scholar
    fetch_google_scholar.
Let fetch_all :=
  DataFetcher.fetch_all World fetch_orcid fetch_arxiv fetch_semantic_scholar
    fetch_google_scholar.

Lemma fetch_all_step_entry platforms results w platform config :
  enabled config = true →
  fetch_all_step platforms (results, w) (platform, config)
  = (<[platform := DataFetcher.entry_of (fetch_platform platforms platform w).1]> results,
     (fetch_platform platforms platform w).2).
Proof.
  intros He. unfold fetch_all_step, DataFetcher.fetch_all_step. rewrite He.
  fold fetch_platform. by destruct (fetch_platform platforms platform w) as [[r|e] w'].
Qed.

Lemma fetch_all_step_disabled platforms acc platform config :
  enabled config = false →
  fetch_all_step platforms acc (platform, config) = acc.
Proof.
  intros He. destruct acc as [results w].
  unfold fetch_all_step, DataFetcher.fetch_all_step. by rewrite He.
Qed.

(** The keys of the results after the loop ran over [items]. *)
Lemma fetch_all_loop_keys platforms items results w name :
  is_Some ((foldl (fetch_all_step platforms) (results, w) items).1 !! name)
  ↔ is_Some (results !! name)
    ∨ ∃ config, (name, config) ∈ items ∧ enabled config = true.
Proof.
  revert results w. induction items as [|[platform config] items IH]; intros results w.
  - simpl. split; [auto|]. intros [?|(config & Hin & _)]; [done|].
    by apply elem_of_nil in Hin.
  - cbn [foldl]. destruct (enabled config) eqn:He.
    + rewrite fetch_all_step_entry by done. rewrite IH.
      rewrite lookup_insert_is_Some'. split.
      * intros [[->|?]|(c & Hin & Hc)]; [right|by left|right].
        -- exists config. split; [apply list_elem_of_here|done].
        -- exists c. split; [by apply list_elem_of_further|done].
      * intros [?|(c & Hin & Hc)]; [by left; right|].
        apply elem_of_cons in Hin as [[= -> ->]|Hin]; [by left; left|].
        right. by exists c.
    + rewrite fetch_all_step_disabled by done. rewrite IH. split.
      * intros [?|(c & Hin & Hc)]; [by left|right].
        exists c. split; [by apply list_elem_of_further|done].
      * intros [?|(c & Hin & Hc)]; [by left|].
        apply elem_of_cons in Hin as [[= -> ->]|Hin]; [congruence|].
        right. by exists c.
Qed.

(** The entry of a platform is not touched by the items after it when
    the names are distinct. *)
Lemma fetch_all_loop_other platforms items results w name :
  name ∉ items.*1 →
  (foldl (fetch_all_step platforms) (results, w) items).1 !! name = results !! name.
Proof.
  revert results w. induction items as [|[platform config] items IH];
    intros results w Hname; [done|].
  cbn [foldl]. simpl in Hname. apply not_elem_of_cons in Hname as [Hne Hname].
  destruct (enabled config) eqn:He.
  - rewrite fetch_all_step_entry by done. rewrite IH by done.
    by rewrite lookup_insert_ne.
  - rewrite fetch_all_step_disabled by done. by apply IH.
Qed.

Lemma fetch_all_loop_app platforms before item after acc :
  foldl (fetch_all_step platforms) acc (before ++ item :: after)
  = foldl (fetch_all_step platforms)
      (fetch_all_step platforms (foldl (fetch_all_step platforms) acc before) item) after.
Proof. by rewrite foldl_app. Qed.

Lemma fetch_platform_unsupported platforms platform config w :
  dict_get platform platforms = Some config → enabled config = true →
  platform ∉ supported_platforms →
  fetch_platform platforms platform w
  = (Raises (PyError "Exception" ("Platform " +:+ platform +:+ " not supported yet")), w).
Proof.
  intros Hget He Hns. unfold fetch_platform, DataFetcher.fetch_platform.
  rewrite Hget, He. simpl.
  unfold supported_platforms in Hns.
  rewrite !not_elem_of_cons in Hns. destruct Hns as (H1 & H2 & H3 & H4 & _).
  by rewrite !bool_decide_eq_false_2.
Qed.

Lemma fetch_all_entry_at platforms before name config after w :
  NoDup (before ++ (name, config) :: after).*1 →
  enabled config = true →
  (foldl (fetch_all_step platforms) (∅, w) (before ++ (name, config) :: after)).1 !! name
  = Some (DataFetcher.entry_of
            (fetch_platform platforms name
               (foldl (fetch_all_step platforms) (∅, w) before).2).1).
Proof.
  intros Hnd He. rewrite fetch_all_loop_app.
  destruct (foldl (fetch_all_step platforms) (∅, w) before) as [results w'] eqn:Hb.
  rewrite fetch_all_step_entry by done.
  rewrite fetch_all_loop_other.
  - by rewrite lookup_insert_eq.
  - rewrite fmap_app, fmap_cons in Hnd. apply NoDup_app in Hnd as (_ & _ & Hnd).
    simpl in Hnd. by apply NoDup_cons in Hnd as [Hnd _].
Qed.
End FetcherFacts.

(** X18. [fetch_all] returns an entry for exactly the enabled platforms
    of the configuration, and for an enabled platform that it cannot
    dispatch the entry is the error "Platform ... not supported yet"; a
    platform that is disabled gets no entry. *)
Theorem X18_fetch_all_entries (World : Type)
    (fetch_orcid fetch_arxiv fetch_semantic_scholar fetch_google_scholar :
       World → outcome FetchResult * World)
    (platforms : list (string * PlatformConfig)) (w : World) :
  let results :=
    (DataFetcher.fetch_all World fetch_orcid fetch_arxiv fetch_semantic_scholar
       fetch_google_scholar platforms w).1 in
  NoDup platforms.*1 →
  (∀ name, is_Some (results !! name)
           ↔ ∃ config, (name, config) ∈ platforms ∧ enabled config = true)
  ∧ (∀ name config, (name, config) ∈ platforms → enabled config = true →
       name ∉ supported_platforms →
       results !! name
       = Some (Failed ("Platform " +:+ name +:+ " not supported yet"))).
Proof.
  intros results Hnd. split.
  - intros name. unfold results, DataFetcher.fetch_all.
    rewrite fetch_all_loop_keys. rewrite lookup_empty. split.
    + intros [[? [=]]|?]; done.
    + by right.
  - intros name config Hin He Hns.
    apply list_elem_of_split in Hin as (before & after & Hsplit).
    unfold results, DataFetcher.fetch_all. rewrite Hsplit at 2.
    rewrite Hsplit in Hnd at 1.
    rewrite (fetch_all_entry_at _ _ _ _ _ platforms before name config after w Hnd He).
    rewrite (fetch_platform_unsupported _ _ _ _ _ platforms name config); [done| |done..].
    apply dict_get_NoDup; [by rewrite Hsplit|].
    rewrite Hsplit. apply elem_of_app. right. apply list_elem_of_here.
Qed.


Lemma X18_witness :
  example_fetch_all.1 !! "scopus"%string
  = Some (Failed "Platform scopus not supported yet")
  ∧ example_fetch_all.1 !! "arxiv"%string = None.
Proof.
  pose proof (X18_fetch_all_entries (list string) example_fetch_fails (example_fetch "arxiv")
                (example_fetch "semantic_scholar") (example_fetch "google_scholar")
                example_platforms []) as H.
  cbv zeta in H. destruct H as [Hkeys Hunsupported].
  { apply (bool_decide_unpack _). vm_compute. reflexivity. }
  split.
  - apply (Hunsupported "scopus"%string (mkPlatformConfig true None None None None)).
    + do 2 apply list_elem_of_further. apply list_elem_of_here.
    + reflexivity.
    + apply (bool_decide_unpack _). vm_compute. reflexivity.
  - apply eq_None_not_Some. intros Hsome. apply Hkeys in Hsome as (config & Hin & He).
    unfold example_platforms in Hin.
    repeat (apply elem_of_cons in Hin as [Heq|Hin]; [by simplify_eq/=|]).
    by apply elem_of_nil in Hin.
Defined.

(** X19. [fetch_all] fetches every enabled platform in the order of the
    configuration, whether or not the platforms before it failed: the
    entry of a platform is the result, or the error text, of its own
    fetch run in the state that the loop over the platforms before it
    left, and a disabled platform changes neither the results nor the
    state. *)
Theorem X19_fetch_all_continues_after_failure (World : Type)
    (fetch_orcid fetch_arxiv fetch_semantic_scholar fetch_google_scholar :
       World → outcome FetchResult * World)
    (before after : list (string * PlatformConfig)) name config (w : World) :
  let platforms := before ++ (name, config) :: after in
  let fetch_platform :=
    DataFetcher.fetch_platform World fetch_orcid fetch_arxiv fetch_semantic_scholar
      fetch_google_scholar platforms in
  let step :=
    DataFetcher.fetch_all_step World fetch_orcid fetch_arxiv fetch_semantic_scholar
      fetch_google_scholar platforms in
  let results :=
    (DataFetcher.fetch_all World fetch_orcid fetch_arxiv fetch_semantic_scholar
       fetch_google_scholar platforms w).1 in
  let reached := foldl step (∅, w) before in
  NoDup platforms.*1 →
  (enabled config = true →
   results !! name = Some (DataFetcher.entry_of (fetch_platform name reached.2).1))
  ∧ (enabled config = false →
     results !! name = None ∧ step reached (name, config) = reached).
Proof.
  intros platforms fetch_platform step results reached Hnd. split.
  - intros He. unfold results, DataFetcher.fetch_all.
    by apply fetch_all_entry_at.
  - intros He. split.
    + apply eq_None_not_Some. intros Hsome.
      unfold results, DataFetcher.fetch_all in Hsome.
      apply fetch_all_loop_keys in Hsome as [[? Hsome]|(c & Hin & Hc)].
      { by rewrite lookup_empty in Hsome. }
      assert (dict_get name platforms = Some c) as Hc' by by apply dict_get_NoDup.
      assert (dict_get name platforms = Some config) as Hconfig.
      { apply dict_get_NoDup; [done|]. apply elem_of_app. right. apply list_elem_of_here. }
      congruence.
    + by apply fetch_all_step_disabled.
Qed.

Lemma X19_witness :
  example_fetch_all.1 !! "semantic_scholar"%string
  = Some (Fetched (mkFetchResult "semantic_scholar" 1 0 None)).
Proof.
  pose proof (X19_fetch_all_continues_after_failure (list string) example_fetch_fails
                (example_fetch "arxiv") (example_fetch "semantic_scholar")
                (example_fetch "google_scholar")
                [ ("orcid", mkPlatformConfig true None None None None);
                  ("arxiv", mkPlatformConfig false None None None None);
                  ("scopus", mkPlatformConfig true None None None None) ]%string
                [] "semantic_scholar"%string
                (mkPlatformConfig true None None None (Some "1741101")) []) as H.
  cbv zeta in H. destruct H as [H _].
  { apply (bool_decide_unpack _). vm_compute. reflexivity. }
  exact (H eq_refl).
Defined.

(** ** arXiv: the identifier of an entry *)

Lemma string_app_cons x (a b : string) : String x a +:+ b = String x (a +:+ b).
Proof. reflexivity. Qed.

Lemma string_app_assoc (a b c : string) : (a +:+ b) +:+ c = a +:+ (b +:+ c).
Proof. induction a as [|x a IH]; [done|]. rewrite !string_app_cons. by f_equal. Qed.

Lemma string_app_nil_r (a : string) : a +:+ EmptyString = a.
Proof. induction a as [|x a IH]; [done|]. rewrite string_app_cons. by f_equal. Qed.

Lemma prefix_app_long (sep t u : string) :
  (String.length sep ≤ String.length t)%nat →
  String.prefix sep (t +:+ u) = String.prefix sep t.
Proof.
  revert t. induction sep as [|c sep IH]; intros t Hlen.
  - by destruct t, u.
  - destruct t as [|d t]; cbn [String.length] in Hlen; [lia|].
    rewrite string_app_cons. cbn [String.prefix].
    destruct (Ascii.ascii_dec c d); [|done]. apply IH. lia.
Qed.

Lemma prefix_app_self (sep u : string) : String.prefix sep (sep +:+ u) = true.
Proof.
  induction sep as [|c sep IH]; [by destruct u|].
  rewrite string_app_cons. cbn [String.prefix]. by destruct (Ascii.ascii_dec c c).
Qed.

Lemma contains_cons term c s :
  contains term (String c s) = false →
  String.prefix term (String c s) = false ∧ contains term s = false.
Proof. cbn [contains]. intros H. by apply orb_false_elim in H. Qed.

(** Passing the rest of a matched separator. *)
Lemma split_from_skip sep (x : string) cur s :
  split_from sep (String.length x) cur (x +:+ s) = split_from sep 0 cur s.
Proof.
  induction x as [|c x IH]; [done|].
  rewrite string_app_cons. cbn [String.length split_from]. done.
Qed.

(** A text without the separator is one piece. *)
Lemma split_from_no_sep sep cur s :
  contains sep s = false → split_from sep 0 cur s = [cur +:+ s].
Proof.
  revert cur. induction s as [|c s IH]; intros cur Hs.
  - cbn [split_from]. by rewrite string_app_nil_r.
  - apply contains_cons in Hs as [Hp Hs].
    cbn [split_from]. rewrite Hp, IH by done.
    by rewrite string_app_assoc.
Qed.

Lemma string_length_app (a b : string) :
  String.length (a +:+ b) = (String.length a + String.length b)%nat.
Proof.
  induction a as [|x a IH]; [done|].
  rewrite string_app_cons. cbn [String.length]. by rewrite IH.
Qed.

(** The first cut: when the separator [init +:+ z] does not occur in
    [a +:+ init], the text [a +:+ separator +:+ s] is cut right after
    [a]. *)
Lemma split_from_first init z a cur s :
  let sep := init +:+ String z EmptyString in
  contains sep (a +:+ init) = false →
  split_from sep 0 cur (a +:+ sep +:+ s)
  = (cur +:+ a) :: split_from sep 0 EmptyString s.
Proof.
  intros sep. revert cur. induction a as [|d a IH]; intros cur Hno.
  - rewrite string_app_nil_r.
    change (EmptyString +:+ sep +:+ s) with (sep +:+ s).
    assert (Hsep : ∃ c rest, sep = String c rest).
    { unfold sep. destruct init; cbn; eauto. }
    destruct Hsep as (c & rest & Hsep). rewrite Hsep at 2. rewrite string_app_cons.
    cbn [split_from]. rewrite <- string_app_cons, <- Hsep, prefix_app_self.
    rewrite Hsep at 2. cbn [String.length]. rewrite Nat.sub_succ, Nat.sub_0_r.
    by rewrite split_from_skip.
  - rewrite string_app_cons in Hno. apply contains_cons in Hno as [Hp Hno].
    rewrite string_app_cons. cbn [split_from].
    assert (Heq : String d (a +:+ sep +:+ s)
                  = String d (a +:+ init) +:+ (String z EmptyString +:+ s)).
    { unfold sep. rewrite (string_app_cons d), !string_app_assoc. done. }
    assert (Hpre : String.prefix sep (String d (a +:+ sep +:+ s)) = false).
    { rewrite Heq, <- Hp. apply prefix_app_long. unfold sep.
      cbn [String.length]. rewrite !string_length_app. cbn [String.length]. lia. }
    rewrite Hpre, IH by done. by rewrite string_app_assoc.
Qed.

(** The last piece is the text itself, or what follows a cut. *)
Lemma split_from_last sep k cur s :
  ∃ x, last (split_from sep k cur s) = Some x
    ∧ ∃ pre t, s = pre +:+ t
        ∧ (x = t ∨ (x = cur +:+ t ∧ (String.length pre ≤ k)%nat)).
Proof.
  revert k cur. induction s as [|c s IH]; intros k cur.
  - exists cur. split; [done|]. exists EmptyString, EmptyString. split; [done|].
    right. split; [by rewrite string_app_nil_r|cbn; lia].
  - cbn [split_from]. destruct k as [|k].
    + destruct (String.prefix sep (String c s)).
      * destruct (IH (String.length sep - 1)%nat EmptyString)
          as (x & Hx & pre & t & Hs & Hcase).
        exists x. split.
        { rewrite last_cons, Hx. done. }
        exists (String c pre), t. split; [by rewrite string_app_cons, Hs|].
        left. by destruct Hcase as [->| [-> _]].
      * destruct (IH 0%nat (cur +:+ String c EmptyString))
          as (x & Hx & pre & t & Hs & Hcase).
        exists x. split; [done|]. destruct Hcase as [->|[-> Hlen]].
        -- exists (String c pre), t. split; [by rewrite string_app_cons, Hs|by left].
        -- destruct pre; [|cbn in Hlen; lia].
           exists EmptyString, (String c s). split; [done|]. right.
           split; [|cbn; lia]. rewrite string_app_assoc. by rewrite Hs.
    + destruct (IH k cur) as (x & Hx & pre & t & Hs & Hcase).
      exists x. split; [done|].
      exists (String c pre), t. split; [by rewrite string_app_cons, Hs|].
      destruct Hcase as [->|[-> Hlen]]; [by left|right]. split; [done|cbn; lia].
Qed.

(** X20. The arXiv identifier of an entry ([entry_id.split('/abs/')[-1]])
    always exists and is a suffix of the entry URL; it is the whole
    entry when the entry does not contain "/abs/"; and for an entry
    [base/abs/ident] in which "/abs/" occurs neither before the cut nor in
    [ident], it is [ident]. *)
Theorem X20_arxiv_id_of_entry (entry base ident : string) :
  (∃ arxiv_id, ArXivClient.arxiv_id_of entry = Returns arxiv_id
     ∧ (∃ pre, entry = pre +:+ arxiv_id)
     ∧ (contains "/abs/" entry = false → arxiv_id = entry))
  ∧ (contains "/abs/" (base +:+ "/abs") = false →
     contains "/abs/" ident = false →
     ArXivClient.arxiv_id_of (base +:+ "/abs/" +:+ ident) = Returns ident).
Proof.
  split.
  - unfold ArXivClient.arxiv_id_of, py_split, py_last.
    destruct (split_from_last "/abs/" 0 EmptyString entry)
      as (x & Hx & pre & t & Hs & Hcase).
    rewrite Hx. exists x. split; [done|]. split.
    + exists pre. by destruct Hcase as [->|[-> _]].
    + intros Hno. rewrite (split_from_no_sep _ _ _ Hno) in Hx. by simplify_eq/=.
  - intros Hbase Hident.
    unfold ArXivClient.arxiv_id_of, py_split, py_last.
    pose proof (split_from_first "/abs" "/" base EmptyString ident) as Hcut.
    cbv zeta in Hcut. change ("/abs" +:+ "/") with "/abs/"%string in Hcut.
    rewrite (Hcut Hbase), (split_from_no_sep _ _ _ Hident). done.
Qed.

Lemma X20_witness :
  ArXivClient.arxiv_id_of "http://arxiv.org/abs/2101.00001v1" = Returns "2101.00001v1".
Proof.
  apply (X20_arxiv_id_of_entry "" "http://arxiv.org" "2101.00001v1"); reflexivity.
Defined.

(** ** arXiv: searching by author *)

Lemma paper_of_result_Returns r :
  ∃ p, ArXivClient.paper_of_result r = Returns p
    ∧ ArXivClient.ap_url p = ArXivClient.entry_id r
    ∧ ArXivClient.ap_title p = ArXivClient.res_title r
    ∧ ∃ pre, ArXivClient.ap_url p = pre +:+ ArXivClient.ap_arxiv_id p.
Proof.
  unfold ArXivClient.paper_of_result, ArXivClient.arxiv_id_of, py_split, py_last.
  destruct (split_from_last "/abs/" 0 EmptyString (ArXivClient.entry_id r))
    as (x & Hx & pre & t & Hs & Hcase).
  rewrite Hx. eexists. split; [reflexivity|]. simpl. split; [done|]. split; [done|].
  exists pre. by destruct Hcase as [->|[-> _]].
Qed.

Lemma collect_Forall2 {A B} (f : A → outcome B) (R : A → B → Prop) l :
  (∀ x, ∃ y, f x = Returns y ∧ R x y) →
  ∃ out, collect f l = Returns out ∧ Forall2 R l out.
Proof.
  intros Hf. induction l as [|x l (out & Hout & HR)]; simpl.
  - exists []. by split.
  - destruct (Hf x) as (y & -> & Hy). rewrite Hout.
    exists (y :: out). split; [done|by constructor].
Qed.

(** X21. [search_by_author] raises the value error when neither the
    argument nor the client holds a non-empty author name, and passes on
    an error of the library.  Otherwise it asks for the author given as
    argument, or else the one of the client, and returns one dictionary
    per result, in order, whose url is the entry id of the result and
    ends with its arXiv identifier. *)
Theorem X21_search_by_author (client_results : string → Z → outcome (list ArXivClient.Result))
    self_author_name author_name max_results :
  let search :=
    ArXivClient.search_by_author client_results self_author_name author_name max_results in
  (str_falsy author_name = true → str_falsy self_author_name = true →
   search = Raises (PyError "ValueError" "Author name required"))
  ∧ ∀ name, name ≠ EmptyString →
      (author_name = Some name
       ∨ (str_falsy author_name = true ∧ self_author_name = Some name)) →
      match client_results ("au:" +:+ ArXivClient.dquote +:+ name +:+ ArXivClient.dquote)
              max_results with
      | Raises e => search = Raises e
      | Returns results =>
          ∃ papers, search = Returns papers
            ∧ Forall2 (λ r p,
                ArXivClient.ap_url p = ArXivClient.entry_id r
                ∧ ArXivClient.ap_title p = ArXivClient.res_title r
                ∧ ∃ pre, ArXivClient.ap_url p = pre +:+ ArXivClient.ap_arxiv_id p)
                results papers
      end.
Proof.
  intros search. split.
  - intros Ha Hs. unfold search, ArXivClient.search_by_author.
    destruct author_name as [[|? ?]|], self_author_name as [[|? ?]|]; done.
  - intros name Hname Hwho.
    assert (Hor : str_or author_name self_author_name = Some name).
    { destruct Hwho as [->|[Ha ->]].
      - by destruct name.
      - destruct author_name as [[|? ?]|]; done. }
    unfold search, ArXivClient.search_by_author. rewrite Hor.
    destruct name as [|c name]; [done|].
    destruct (client_results _ max_results) as [results|e]; [|done].
    destruct (collect_Forall2 ArXivClient.paper_of_result
                (λ r p,
                   ArXivClient.ap_url p = ArXivClient.entry_id r
                   ∧ ArXivClient.ap_title p = ArXivClient.res_title r
                   ∧ ∃ pre, ArXivClient.ap_url p = pre +:+ ArXivClient.ap_arxiv_id p)
                results paper_of_result_Returns) as (papers & Hc & HR).
    by exists papers.
Qed.

Lemma X21_witness :
  ArXivClient.search_by_author (λ _ _, Returns []) (Some "") None 100
  = Raises (PyError "ValueError" "Author name required")
  ∧ ∃ papers,
      ArXivClient.search_by_author
        (λ _ _, Returns [ArXivClient.example_result]) (Some "A. Author") (Some "") 100
      = Returns papers
      ∧ Forall2 (λ r p,
          ArXivClient.ap_url p = ArXivClient.entry_id r
          ∧ ArXivClient.ap_title p = ArXivClient.res_title r
          ∧ ∃ pre, ArXivClient.ap_url p = pre +:+ ArXivClient.ap_arxiv_id p)
          [ArXivClient.example_result] papers.
Proof.
  split.
  - apply (X21_search_by_author (λ _ _, Returns []) (Some "") None 100); reflexivity.
  - pose proof (X21_search_by_author (λ _ _, Returns [ArXivClient.example_result])
                  (Some "A. Author") (Some "") 100) as [_ H].
    apply (H "A. Author"); [discriminate|]. right. split; reflexivity.
Defined.
